(** * Cellhasher device scripts: a shallow embedding and its properties

    Two host-side Python scripts are modelled here:
    - [Acurast-Lite-Install-Update.py] (module [Install]): resolve the latest
      release asset, download it, install it on every device through a
      thread pool, remove the download;
    - [setup_ssh.py] (module [SetupSsh]): render a Termux shell script around
      a password, push it to the first device and trigger it through
      synthetic key input.

    Python [str] values are modelled as [string]; a character stands for a
    code point below 256.  External collaborators (the adb executable, the
    network, the file system, the thread scheduler) are parameters of the
    sections below. *)

From Stdlib Require Import ZArith Ascii String Lia.
From stdpp Require Import gmap strings list.

Set Default Proof Using "Type".

(** ** Python string primitives *)

Module Py.

Definition nl : string := String "010"%char EmptyString.
Definition dq : string := String "034"%char EmptyString.
Definition sq : string := String "'"%char EmptyString.

(** [str.isspace] for one character (code points below 256): TAB..CR,
    the separators FS..US, SPACE, NEL and NBSP. *)
Definition isspace (c : ascii) : bool :=
  let n := nat_of_ascii c in
  ((9 <=? n) && (n <=? 13)) || ((28 <=? n) && (n <=? 32))
  || (n =? 133) || (n =? 160).

(** [str.lower] for one character: A..Z and the Latin-1 capitals
    (all of 192..222 but the multiplication sign 215) move up by 32. *)
Definition lower_char (c : ascii) : ascii :=
  let n := nat_of_ascii c in
  if ((65 <=? n) && (n <=? 90))
     || ((192 <=? n) && (n <=? 222) && negb (n =? 215))
  then ascii_of_nat (n + 32) else c.

Fixpoint lower (s : string) : string :=
  match s with
  | EmptyString => EmptyString
  | String c s' => String (lower_char c) (lower s')
  end.

(** [needle in hay] *)
Fixpoint contains (needle hay : string) : bool :=
  String.prefix needle hay ||
  match hay with
  | EmptyString => false
  | String _ hay' => contains needle hay'
  end.

(** [s.endswith(suffix)] *)
Fixpoint endswith (s suffix : string) : bool :=
  String.eqb s suffix ||
  match s with
  | EmptyString => false
  | String _ s' => endswith s' suffix
  end.

Definition is_empty (s : string) : bool :=
  match s with EmptyString => true | String _ _ => false end.

(** [s.lstrip()], [s.rstrip()] and [s.strip()] *)
Fixpoint lstrip (s : string) : string :=
  match s with
  | EmptyString => EmptyString
  | String c s' => if isspace c then lstrip s' else s
  end.

Fixpoint rstrip (s : string) : string :=
  match s with
  | EmptyString => EmptyString
  | String c s' =>
      match rstrip s' with
      | EmptyString => if isspace c then EmptyString else String c EmptyString
      | t => String c t
      end
  end.

Definition strip (s : string) : string := rstrip (lstrip s).

(** [s.split()]: the maximal runs of non-space characters, in order.
    [word] holds the run being read. *)
Fixpoint split_from (word : string) (s : string) : list string :=
  match s with
  | EmptyString => if is_empty word then [] else [word]
  | String c s' =>
      if isspace c
      then (if is_empty word then split_from EmptyString s'
            else word :: split_from EmptyString s')
      else split_from (word +:+ String c EmptyString) s'
  end.

Definition split (s : string) : list string := split_from EmptyString s.

(** [sep.join(parts)] *)
Fixpoint join (sep : string) (parts : list string) : string :=
  match parts with
  | [] => EmptyString
  | [p] => p
  | p :: ps => p +:+ sep +:+ join sep ps
  end.

(** [s.replace(old, new)] for a one-character [old] *)
Fixpoint replace_char (old : ascii) (new : string) (s : string) : string :=
  match s with
  | EmptyString => EmptyString
  | String c s' =>
      if Ascii.eqb c old then new +:+ replace_char old new s'
      else String c (replace_char old new s')
  end.

Fixpoint forall_chars (p : ascii -> bool) (s : string) : bool :=
  match s with
  | EmptyString => true
  | String c s' => p c && forall_chars p s'
  end.

(** A string [s.split()] can return: not empty and free of white space. *)
Definition is_token (s : string) : bool :=
  negb (is_empty s) && forall_chars (fun c => negb (isspace c)) s.

(** A string without the NUL character. *)
Definition no_nul (s : string) : bool :=
  forall_chars (fun c => negb (Ascii.eqb c "000")) s.

(** *** [shlex.quote]

    The characters outside the class [[^\w@%+=:,./-]] (ASCII flag) need no
    quoting. *)
Definition is_word_char (c : ascii) : bool :=
  let n := nat_of_ascii c in
  ((48 <=? n) && (n <=? 57)) || ((65 <=? n) && (n <=? 90))
  || ((97 <=? n) && (n <=? 122)) || (n =? 95).

Definition is_safe (c : ascii) : bool :=
  is_word_char c || contains (String c EmptyString) "@%+=:,./-".

Definition find_unsafe (s : string) : bool := negb (forall_chars is_safe s).

Definition quote (s : string) : string :=
  if is_empty s then sq +:+ sq
  else if negb (find_unsafe s) then s
  else sq +:+ replace_char "'"%char (sq +:+ dq +:+ sq +:+ dq +:+ sq) s +:+ sq.

End Py.

(** ** POSIX shell quoting

    A reader for one shell word, after the quoting rules of the POSIX Shell
    Command Language (section 2.2): outside quotes a backslash preserves the
    next character, single quotes preserve everything up to the next single
    quote, double quotes preserve everything but dollar, backquote and
    backslash.  The reader returns the text the word denotes and the input
    left after it; it gives up ([None]) on a word that is not a plain
    literal: an unterminated quote, an expansion or substitution (dollar,
    backquote), or an unquoted pattern, comment or tilde character.

    The rules say nothing of the NUL character; the shells that run the
    script, bash and dash, drop every NUL from the input they read, before
    any quoting applies.  The flag [nul] of [read] says whether the reader
    does so; [word], the reader the rendered script is measured against,
    does.  The reader is not part of the scripts. *)

Module Sh.

(** Where the reader is: outside quotes, right after a backslash outside
    quotes, inside single quotes, inside double quotes, right after a
    backslash inside double quotes. *)
Inductive QuoteMode := Bare | BareEsc | Single | Double | DoubleEsc.

Definition one_of (set : string) (c : ascii) : bool :=
  Py.contains (String c EmptyString) set.

(** Blanks, newline and the operator characters end a word. *)
Definition is_delimiter (c : ascii) : bool :=
  one_of " |&;<>()" c || Ascii.eqb c "009" || Ascii.eqb c "010".

(** Characters that start an expansion or a substitution. *)
Definition is_expansion (c : ascii) : bool := one_of "$`" c.

(** Characters that are special in some contexts when unquoted. *)
Definition is_pattern (c : ascii) : bool := one_of "*?[#~" c.

(** Inside double quotes a backslash escapes only these. *)
Definition is_dq_escapable (c : ascii) : bool :=
  one_of "$`\" c || Ascii.eqb c "034" || Ascii.eqb c "010".

Definition push (c : ascii) (r : option (string * string)) :
  option (string * string) :=
  match r with
  | Some (value, rest) => Some (String c value, rest)
  | None => None
  end.

Fixpoint read (nul : bool) (m : QuoteMode) (s : string) :
  option (string * string) :=
  match s with
  | EmptyString =>
      match m with
      | Bare => Some (EmptyString, EmptyString)
      | _ => None
      end
  | String c s' =>
      if nul && Ascii.eqb c "000" then read nul m s'
      else
        match m with
        | Bare =>
            if is_delimiter c then Some (EmptyString, s)
            else if Ascii.eqb c "'" then read nul Single s'
            else if Ascii.eqb c "034" then read nul Double s'
            else if Ascii.eqb c "\" then read nul BareEsc s'
            else if is_expansion c || is_pattern c then None
            else push c (read nul Bare s')
        | BareEsc =>
            if Ascii.eqb c "010" then read nul Bare s'
            else push c (read nul Bare s')
        | Single =>
            if Ascii.eqb c "'" then read nul Bare s'
            else push c (read nul Single s')
        | Double =>
            if Ascii.eqb c "034" then read nul Bare s'
            else if Ascii.eqb c "\" then read nul DoubleEsc s'
            else if is_expansion c then None
            else push c (read nul Double s')
        | DoubleEsc =>
            if Ascii.eqb c "010" then read nul Double s'
            else if is_dq_escapable c then push c (read nul Double s')
            else push "\" (push c (read nul Double s'))
        end
  end.

(** The word a shell reads: NUL characters are dropped. *)
Definition word (m : QuoteMode) (s : string) : option (string * string) :=
  read true m s.

(** A variable name: letters, digits and underscore, not starting with a
    digit. *)
Fixpoint name_chars (s : string) : string * string :=
  match s with
  | EmptyString => (EmptyString, EmptyString)
  | String c s' =>
      if Py.is_word_char c
      then let '(n, rest) := name_chars s' in (String c n, rest)
      else (EmptyString, s)
  end.

(** The simple command [NAME=word] at the head of [s], ended by a newline:
    the name, the value assigned and the script left after the command. *)
Definition assignment (s : string) : option (string * string * string) :=
  match name_chars s with
  | (EmptyString, _) => None
  | (String c0 n, String "=" s') =>
      if (48 <=? nat_of_ascii c0) && (nat_of_ascii c0 <=? 57) then None
      else
        match word Bare s' with
        | Some (value, String "010" rest) =>
            Some (String c0 n, value, String "010" rest)
        | _ => None
        end
  | _ => None
  end.

Fixpoint skip_line (s : string) : string :=
  match s with
  | EmptyString => EmptyString
  | String c s' => if Ascii.eqb c "010" then s' else skip_line s'
  end.

End Sh.

(** ** Results and exceptions shared by both scripts *)

Inductive Result (E A : Type) : Type :=
  | Ok (a : A)
  | Raise (e : E).
Arguments Ok {E A} a.
Arguments Raise {E A} e.

(** ** setup_ssh.py *)

Module SetupSsh.

(** The value the host substitutes for the placeholder
    [__TERMUX_SSH_PASSWORD__]: a string literal, or something else. *)
Inductive PyValue :=
  | PyStr (s : string)
  | PyOther.

(** [subprocess.CompletedProcess]; the streams are [None] when not
    captured. *)
Record CompletedProcess := {
  returncode : Z;
  stdout : option string;
  stderr : option string
}.

Inductive exn :=
  | OSError (msg : string)
  | UnicodeDecodeError (msg : string)
  | CalledProcessError (code : Z) (cmd : list string).

(** What the operating system does with a process to start: it runs and
    exits with a status and two output streams that decode as text; it
    cannot be started; or it runs and exits with a status and output that
    does not decode as text. *)
Inductive Spawned :=
  | Exited (code : Z) (out err : string)
  | SpawnFailed (msg : string)
  | Undecodable (code : Z) (msg : string).

Inductive Created :=
  | TempFile (path : string)
  | TempFailed (msg : string).

Inductive Event :=
  | Spawn (args : list string)
  | WriteTemp (path content : string)
  | Sleep (ms : nat).

Section Host.

(** The host and the devices behind the bridge. *)
Variable World : Type.
Variable spawn : list string -> World -> Spawned * World.
Variable mktemp : string -> World -> Created * World.

(** The process environment and the substituted password. *)
Variable environ : gmap string string.
Variable TERMUX_SSH_PASSWORD : PyValue.

Record State := { world : World; log : list Event }.

Definition M (A : Type) : Type := State -> Result exn A * State.

Definition ret {A} (a : A) : M A := fun st => (Ok a, st).

Definition bind {A B} (m : M A) (k : A -> M B) : M B :=
  fun st =>
    match m st with
    | (Ok a, st') => k a st'
    | (Raise e, st') => (Raise e, st')
    end.

Notation "x <- m ;; k" := (bind m (fun x => k))
  (at level 100, m at next level, right associativity).
Notation "m ;;; k" := (bind m (fun _ => k))
  (at level 100, right associativity).

Definition ADB : string := default "adb" (environ !! "adb_path").
Definition DEVICES : list string :=
  Py.split (default EmptyString (environ !! "devices")).

(** [subprocess.run(args, check=check, text=True, capture_output=capture)]:
    the captured output is decoded when the process has ended, before the
    exit status is looked at. *)
Definition run (args : list string) (check capture : bool) :
  M CompletedProcess :=
  fun st =>
    let '(r, w) := spawn args (world st) in
    let st' := {| world := w; log := log st ++ [Spawn args] |} in
    match r with
    | SpawnFailed msg => (Raise (OSError msg), st')
    | Exited code out err =>
        if check && negb (code =? 0)%Z
        then (Raise (CalledProcessError code args), st')
        else (Ok {| returncode := code;
                    stdout := if capture then Some out else None;
                    stderr := if capture then Some err else None |}, st')
    | Undecodable code msg =>
        if capture then (Raise (UnicodeDecodeError msg), st')
        else if check && negb (code =? 0)%Z
        then (Raise (CalledProcessError code args), st')
        else (Ok {| returncode := code; stdout := None; stderr := None |},
              st')
    end.

Definition sleep (ms : nat) : M unit :=
  fun st => (Ok tt, {| world := world st; log := log st ++ [Sleep ms] |}).

(** [tempfile.NamedTemporaryFile(..., delete=False, suffix=".sh")] followed
    by the write of the whole text. *)
Definition write_temp (content : string) : M string :=
  fun st =>
    let '(r, w) := mktemp content (world st) in
    match r with
    | TempFailed msg => (Raise (OSError msg), {| world := w; log := log st |})
    | TempFile path =>
        (Ok path, {| world := w; log := log st ++ [WriteTemp path content] |})
    end.

Definition check_termux_installed (device_id : string) : M bool :=
  cp <- run [ADB; "-s"; device_id; "shell"; "pm"; "list"; "packages";
             "com.termux"] false true ;;
  ret (Py.contains "com.termux" (default EmptyString (stdout cp))).

Definition script_head : string :=
  "#!/data/data/com.termux/files/usr/bin/bash" +:+ Py.nl +:+
  "set -e" +:+ Py.nl +:+
  Py.nl.

Definition script_tail : string :=
  Py.nl +:+
  Py.nl +:+
  "if command -v sshd >/dev/null 2>&1; then" +:+ Py.nl +:+
  "  echo " +:+ Py.dq +:+ "OpenSSH already installed (sshd found)" +:+ Py.dq
    +:+ Py.nl +:+
  "else" +:+ Py.nl +:+
  "  pkg update -y" +:+ Py.nl +:+
  "  pkg install -y openssh" +:+ Py.nl +:+
  "fi" +:+ Py.nl +:+
  Py.nl +:+
  "# Update password (Termux's passwd prompts twice)" +:+ Py.nl +:+
  "if [ -n " +:+ Py.dq +:+ "$TERMUX_SSH_PASSWORD" +:+ Py.dq +:+ " ]; then"
    +:+ Py.nl +:+
  "  printf '%s" +:+ Py.nl +:+ "%s" +:+ Py.nl +:+ "' "
    +:+ Py.dq +:+ "$TERMUX_SSH_PASSWORD" +:+ Py.dq +:+ " "
    +:+ Py.dq +:+ "$TERMUX_SSH_PASSWORD" +:+ Py.dq +:+ " | passwd" +:+ Py.nl +:+
  "fi" +:+ Py.nl +:+
  Py.nl +:+
  "# Start sshd if not already running" +:+ Py.nl +:+
  "if ! pgrep -x sshd >/dev/null 2>&1; then" +:+ Py.nl +:+
  "  sshd" +:+ Py.nl +:+
  "fi" +:+ Py.nl +:+
  Py.nl +:+
  "echo " +:+ Py.dq +:+ "Termux SSH ready" +:+ Py.dq +:+ Py.nl.

(** The f-string of [main]: the skeleton around the quoted password. *)
Definition termux_bash_script (pw : string) : string :=
  script_head +:+ "TERMUX_SSH_PASSWORD=" +:+ pw +:+ script_tail.

Definition device_script_path : string := "/data/local/tmp/setup_ssh.sh".

Definition main : M Z :=
  match DEVICES with
  | [] => ret 2%Z
  | device_id :: _ =>
      match TERMUX_SSH_PASSWORD with
      | PyOther => ret 2%Z
      | PyStr password =>
          if Py.is_empty (Py.strip password) then ret 2%Z
          else
            installed <- check_termux_installed device_id ;;
            if negb installed then ret 3%Z
            else
              let pw := Py.quote password in
              local_script_path <- write_temp (termux_bash_script pw) ;;
              run [ADB; "-s"; device_id; "shell"; "am"; "force-stop";
                   "com.termux"] false true ;;;
              sleep 1000 ;;;
              run [ADB; "-s"; device_id; "push"; local_script_path;
                   device_script_path] true true ;;;
              run [ADB; "-s"; device_id; "shell"; "chmod"; "755";
                   device_script_path] true true ;;;
              run [ADB; "-s"; device_id; "shell"; "am"; "start"; "-n";
                   "com.termux/.app.TermuxActivity"] false true ;;;
              sleep 4000 ;;;
              let typed := "bash%s" +:+ device_script_path in
              run [ADB; "-s"; device_id; "shell"; "input"; "text"; typed]
                  false true ;;;
              sleep 500 ;;;
              run [ADB; "-s"; device_id; "shell"; "input"; "keyevent"; "66"]
                  false true ;;;
              ret 0%Z
      end
  end.

(** [raise SystemExit(main())]: the status is the integer returned; an
    exception that leaves [main] ends the interpreter with status 1. *)
Definition exit_status (r : Result exn Z) : Z :=
  match r with
  | Ok n => n
  | Raise _ => 1%Z
  end.

(** An event leaves the device [device_id] as the only one addressed: a
    process started is the bridge [adb] with the selector [-s device_id]. *)
Definition targets (adb device_id : string) (ev : Event) : bool :=
  match ev with
  | Spawn (exe :: "-s" :: d :: _) => String.eqb exe adb && String.eqb d device_id
  | Spawn _ => false
  | WriteTemp _ _ | Sleep _ => true
  end.

(** A computation that only adds events that pass [ok] to the log. *)
Definition only_logs {A} (ok : Event -> bool) (m : M A) : Prop :=
  forall st, exists evs,
    log (m st).2 = log st ++ evs /\ forallb ok evs = true.

(** The steps of [main] from the package query on, for the device and the
    local file the script was written to: what a run that goes through
    logs, in order. *)
Definition flow (device_id local_script_path password : string) :
  list Event :=
  [ Spawn [ADB; "-s"; device_id; "shell"; "pm"; "list"; "packages";
           "com.termux"];
    WriteTemp local_script_path (termux_bash_script (Py.quote password));
    Spawn [ADB; "-s"; device_id; "shell"; "am"; "force-stop"; "com.termux"];
    Sleep 1000;
    Spawn [ADB; "-s"; device_id; "push"; local_script_path;
           device_script_path];
    Spawn [ADB; "-s"; device_id; "shell"; "chmod"; "755"; device_script_path];
    Spawn [ADB; "-s"; device_id; "shell"; "am"; "start"; "-n";
           "com.termux/.app.TermuxActivity"];
    Sleep 4000;
    Spawn [ADB; "-s"; device_id; "shell"; "input"; "text";
           "bash%s" +:+ device_script_path];
    Sleep 500;
    Spawn [ADB; "-s"; device_id; "shell"; "input"; "keyevent"; "66"] ].

End Host.

End SetupSsh.

(** ** Acurast-Lite-Install-Update.py *)

Module Install.

(** [subprocess.CompletedProcess] of a call with captured text output. *)
Record CompletedProcess := {
  returncode : Z;
  stdout : string;
  stderr : string
}.

(** An instance of [Exception], known by its [str()]. *)
Inductive exn := Exception (msg : string).

Definition str (e : exn) : string := let 'Exception msg := e in msg.

(** One entry of the [assets] array of the release document. *)
Record Asset := {
  name : string;
  browser_download_url : string
}.

(** The release document; the [assets] key may be missing. *)
Record Release := { assets : option (list Asset) }.

(** What a run does to the outside, in order.  Progress banners are left
    out; [Outcome] is one pass of the [as_completed] loop: the device the
    future belongs to and the line printed for it. *)
Inductive Event :=
  | Fetch (url : string)
  | Download (url path : string)
  | Bridge (command : string)
  | Outcome (device_id line : string)
  | Exists (path : string)
  | Unlink (path : string)
  | ScriptFailed (e : exn).

(** The scheduler's choices while the pool runs: a worker thread takes up
    the call of a future, a worker makes and finishes its call, or the
    [as_completed] loop receives a future. *)
Inductive Tick :=
  | Start (future : nat)
  | Finish (future : nat)
  | Yield (future : nat).

(** The per-device outcomes among some events, in order. *)
Definition outcomes (evs : list Event) : list (string * string) :=
  omap (fun ev => match ev with
                  | Outcome device_id line => Some (device_id, line)
                  | _ => None
                  end) evs.

(** The command lines of the bridge calls among some events, in order. *)
Definition bridges (evs : list Event) : list string :=
  omap (fun ev => match ev with
                  | Bridge command => Some command
                  | _ => None
                  end) evs.

(** The events of the pool: bridge calls and reported outcomes. *)
Definition is_pool_event (ev : Event) : bool :=
  match ev with
  | Bridge _ | Outcome _ _ => true
  | _ => false
  end.

(** [subprocess.run(command, shell=True, capture_output=True, text=True)]
    over what the operating system does with the command line: no [check]
    is asked for, so the process that ends is handed back with its exit
    code and decoded output whatever the code; a process that cannot be
    started and output that does not decode raise. *)
Definition run_shell (os : string -> SetupSsh.Spawned) (command : string) :
  Result exn CompletedProcess :=
  match os command with
  | SetupSsh.Exited code out err =>
      Ok {| returncode := code; stdout := out; stderr := err |}
  | SetupSsh.SpawnFailed msg => Raise (Exception msg)
  | SetupSsh.Undecodable _ msg => Raise (Exception msg)
  end.

Section Host.

Variable environ : gmap string string.
(** [urlopen(url)] read, decoded and parsed as JSON. *)
Variable urlopen_json : string -> Result exn Release.
(** [urlretrieve(url, path)]: the size of the file written; or the error
    raised and what the broken download leaves at the path, nothing or a
    file of some size (the file is opened for writing before the body is
    read). *)
Variable urlretrieve : string -> string -> Result (exn * option nat) nat.
(** [subprocess.run(command, shell=True, capture_output=True, text=True)] *)
Variable shell : string -> Result exn CompletedProcess.
Variable gettempdir : string.
(** [os.path.join] of the host platform. *)
Variable path_join : string -> string -> string.
(** The text of the error raised for a path that does not exist. *)
Variable no_such_file : string -> string.
(** What other processes do to the file system while the installs run. *)
Variable interference : gmap string nat -> gmap string nat.

(** Files by path, with their sizes, and the events so far. *)
Record State := { fs : gmap string nat; trace : list Event }.

Definition M (A : Type) : Type := State -> Result exn A * State.

Definition ret {A} (a : A) : M A := fun st => (Ok a, st).

Definition raise {A} (e : exn) : M A := fun st => (Raise e, st).

Definition bind {A B} (m : M A) (k : A -> M B) : M B :=
  fun st =>
    match m st with
    | (Ok a, st') => k a st'
    | (Raise e, st') => (Raise e, st')
    end.

Definition try_except {A} (m : M A) (handler : exn -> M A) : M A :=
  fun st =>
    match m st with
    | (Ok a, st') => (Ok a, st')
    | (Raise e, st') => handler e st'
    end.

Definition emit (ev : Event) : M unit :=
  fun st => (Ok tt, {| fs := fs st; trace := trace st ++ [ev] |}).

Definition lift {A} (r : Result exn A) : M A := fun st => (r, st).

Notation "x <- m ;; k" := (bind m (fun x => k))
  (at level 100, m at next level, right associativity).
Notation "m ;;; k" := (bind m (fun _ => k))
  (at level 100, right associativity).

Definition ADB : string := default "adb" (environ !! "adb_path").
Definition devices : list string :=
  Py.split (default EmptyString (environ !! "devices")).

Definition GITHUB_API_URL : string :=
  "https://api.github.com/repos/Acurast/acurast-processor-update/releases/latest".

(** The test on an asset name: it holds the marker in any letter case and
    ends with the extension. *)
Definition is_lite_apk (asset_name : string) : bool :=
  Py.contains "processor-lite" (Py.lower asset_name)
  && Py.endswith asset_name ".apk".

(** The [for asset in ...] loop of [get_latest_acurast_lite_apk], which
    returns at the first asset that passes the test. *)
Fixpoint find_asset (l : list Asset) : option (string * string) :=
  match l with
  | [] => None
  | asset :: rest =>
      if is_lite_apk (name asset)
      then Some (browser_download_url asset, name asset)
      else find_asset rest
  end.

Definition get_latest_acurast_lite_apk : M (string * string) :=
  try_except
    (emit (Fetch GITHUB_API_URL) ;;;
     release_data <- lift (urlopen_json GITHUB_API_URL) ;;
     match find_asset (default [] (assets release_data)) with
     | Some found => ret found
     | None =>
         raise (Exception "Could not find processor-lite APK in latest release")
     end)
    (fun e => raise e).

Definition os_path_getsize (path : string) : M nat :=
  fun st =>
    match fs st !! path with
    | Some size => (Ok size, st)
    | None => (Raise (Exception (no_such_file path)), st)
    end.

Definition os_path_exists (path : string) : M bool :=
  fun st =>
    (Ok (bool_decide (is_Some (fs st !! path))),
     {| fs := fs st; trace := trace st ++ [Exists path] |}).

Definition os_unlink (path : string) : M unit :=
  fun st =>
    let st' := {| fs := delete path (fs st);
                  trace := trace st ++ [Unlink path] |} in
    match fs st !! path with
    | Some _ => (Ok tt, st')
    | None => (Raise (Exception (no_such_file path)),
               {| fs := fs st; trace := trace st ++ [Unlink path] |})
    end.

Definition url_retrieve (url path : string) : M unit :=
  fun st =>
    let tr := trace st ++ [Download url path] in
    match urlretrieve url path with
    | Ok size => (Ok tt, {| fs := <[path := size]> (fs st); trace := tr |})
    | Raise (e, partial) =>
        (Raise e,
         {| fs := match partial with
                  | Some size => <[path := size]> (fs st)
                  | None => fs st
                  end;
            trace := tr |})
    end.

Definition download_apk (apk_url apk_name : string) : M string :=
  try_except
    (let temp_dir := gettempdir in
     let local_apk_path := path_join temp_dir apk_name in
     url_retrieve apk_url local_apk_path ;;;
     file_size <- os_path_getsize local_apk_path ;;
     ret local_apk_path)
    (fun e => raise e).

Definition subprocess_run (command : string) : M CompletedProcess :=
  emit (Bridge command) ;;; lift (shell command).

(** The command line of the install, [adb install -r] for one device. *)
Definition install_command (device_id apk_path : string) : string :=
  Py.dq +:+ ADB +:+ Py.dq +:+ " -s " +:+ device_id +:+ " install -r "
  +:+ Py.dq +:+ apk_path +:+ Py.dq.

Definition install_apk_on_device (device_id apk_path : string) : M string :=
  try_except
    (result <- subprocess_run (install_command device_id apk_path) ;;
     if (returncode result =? 0)%Z || Py.contains "Success" (stdout result)
     then ret ("[" +:+ device_id +:+ "] Success")
     else
       let error_msg :=
         if Py.is_empty (stderr result) then stdout result
         else stderr result in
       ret ("[" +:+ device_id +:+ "] Failed: " +:+ error_msg))
    (fun e => ret ("[" +:+ device_id +:+ "] Error: " +:+ str e)).

(** The pool: the futures a worker thread is busy with, the futures that
    are done, with their result or exception, and the futures the loop has
    received, latest first. *)
Record Pool := {
  running : list nat;
  done : gmap nat (Result exn string);
  yielded : list nat
}.

Definition max_workers : nat := Nat.max 1 (length devices).

(** [future_to_device]: the future of the i-th submission is [i]. *)
Definition future_to_device : gmap nat string := map_seq 0 devices.

(** The body of the [as_completed] loop: the line printed for a future of
    [device_id] that holds a result or an exception. *)
Definition report (device_id : string) (r : Result exn string) : string :=
  match r with
  | Ok result => result
  | Raise exc =>
      "[" +:+ device_id +:+ "] Generated an exception: " +:+ str exc
  end.

(** One choice of the scheduler.  A choice that cannot happen changes
    nothing: a future that was never submitted; a start of a future that
    was started before, or with all [max_workers] threads busy; the end of
    a call that no thread is busy with; the receipt of a future that is not
    done or was received before. *)
Definition tick (apk_path : string) (t : Tick) (ps : Pool * State) :
  Pool * State :=
  let '(pool, st) := ps in
  match t with
  | Start future =>
      match future_to_device !! future with
      | Some _ =>
          if bool_decide (future ∈ running pool)
             || bool_decide (is_Some (done pool !! future))
             || negb (length (running pool) <? max_workers)
          then ps
          else ({| running := future :: running pool;
                   done := done pool;
                   yielded := yielded pool |}, st)
      | None => ps
      end
  | Finish future =>
      match future_to_device !! future with
      | Some device_id =>
          if bool_decide (future ∈ running pool)
          then
            let '(r, st') := install_apk_on_device device_id apk_path st in
            ({| running := filter (fun i => i <> future) (running pool);
                done := <[future := r]> (done pool);
                yielded := yielded pool |}, st')
          else ps
      | None => ps
      end
  | Yield future =>
      match future_to_device !! future, done pool !! future with
      | Some device_id, Some r =>
          if bool_decide (future ∈ yielded pool) then ps
          else
            ({| running := running pool;
                done := done pool;
                yielded := future :: yielded pool |},
             {| fs := fs st;
                trace := trace st ++ [Outcome device_id (report device_id r)] |})
      | _, _ => ps
      end
  end.

Definition idle : Pool := {| running := []; done := ∅; yielded := [] |}.

(** The [with ThreadPoolExecutor ...] block.  The workers and the loop
    advance as [schedule] says; the loop ends when every future has been
    received and the block is left when every worker has returned, so what
    the schedule leaves undone is done at the end, in submission order. *)
Definition fan_out (apk_path : string) (schedule : list Tick) : M unit :=
  fun st =>
    let futures := seq 0 (length devices) in
    let ticks := schedule ++ (Start <$> futures) ++ (Finish <$> futures)
                 ++ (Yield <$> futures) in
    let '(_, st') :=
      foldl (fun ps t => tick apk_path t ps) (idle, st) ticks in
    (Ok tt, {| fs := interference (fs st'); trace := trace st' |}).

Definition cleanup (apk_path : string) : M unit :=
  found <- os_path_exists apk_path ;;
  if found then os_unlink apk_path else ret tt.

Definition main (schedule : list Tick) : M unit :=
  match devices with
  | [] => ret tt
  | _ :: _ =>
      try_except
        (found <- get_latest_acurast_lite_apk ;;
         let '(apk_url, apk_name) := found in
         apk_path <- download_apk apk_url apk_name ;;
         fan_out apk_path schedule ;;;
         cleanup apk_path ;;;
         ret tt)
        (fun e => emit (ScriptFailed e))
  end.

(** What a call of [install_apk_on_device] hands to its future. *)
Definition returned (device_id apk_path : string) : Result exn string :=
  (install_apk_on_device device_id apk_path {| fs := ∅; trace := [] |}).1.

(** The device of a future, for the futures that were submitted. *)
Definition device_of (future : nat) : string :=
  default EmptyString (devices !! future).

(** The outcome the loop reports for a future. *)
Definition outcome_of (apk_path : string) (future : nat) : string * string :=
  let device_id := device_of future in
  (device_id, report device_id (returned device_id apk_path)).

(** The state [st] with more events. *)
Definition logged (st : State) (evs : list Event) : State :=
  {| fs := fs st; trace := trace st ++ evs |}.

(** What holds of the pool at every moment of a run that started in
    [st0]: the file system is left alone; a thread is busy with a future
    at most once, and only with a submitted future that is not done; a
    future is received once and only when it is done; a done future was
    submitted and holds what its call returned; the events so far are the
    bridge calls of the done futures and the outcomes of the received
    ones, in order of receipt. *)
Record pool_inv (apk_path : string) (st0 : State) (ps : Pool * State) :
  Prop := {
  inv_fs : fs ps.2 = fs st0;
  inv_running_nodup : NoDup (running ps.1);
  inv_running : forall i, i ∈ running ps.1 ->
    i < length devices /\ done ps.1 !! i = None;
  inv_nodup : NoDup (yielded ps.1);
  inv_yielded : forall i, i ∈ yielded ps.1 -> is_Some (done ps.1 !! i);
  inv_done : forall i, is_Some (done ps.1 !! i) ->
    i < length devices /\
    done ps.1 !! i = Some (returned (device_of i) apk_path);
  inv_trace : exists evs,
    trace ps.2 = trace st0 ++ evs /\
    forallb is_pool_event evs = true /\
    outcomes evs = outcome_of apk_path <$> reverse (yielded ps.1) /\
    forall i, is_Some (done ps.1 !! i) ->
      Bridge (install_command (device_of i) apk_path) ∈ evs
}.

(** Every outcome among [evs] comes after the bridge call of its device. *)
Definition call_order (apk_path : string) (evs : list Event) : Prop :=
  forall k device_id line,
    evs !! k = Some (Outcome device_id line) ->
    exists j, j < k /\
      evs !! j = Some (Bridge (install_command device_id apk_path)).

End Host.

End Install.

(** ** Sample hosts

    Concrete collaborators on which the embeddings can be run: a fleet of
    three devices of which the second makes the bridge call raise and the
    third reports a failure, the release of the three sample assets, and a
    device with and without Termux. *)

Module Sample.

Definition environ : gmap string string := {[ "devices" := "D1 D2 D3" ]}.

Definition release : Install.Release :=
  {| Install.assets := Some
       [ {| Install.name := "app-v1.apk";
            Install.browser_download_url := "https://host/app-v1.apk" |};
         {| Install.name := "processor-lite-v2.apk";
            Install.browser_download_url := "https://host/lite-v2.apk" |};
         {| Install.name := "other.txt";
            Install.browser_download_url := "https://host/other.txt" |} ] |}.

Definition bare_release : Install.Release :=
  {| Install.assets := Some
       [ {| Install.name := "app-v1.apk";
            Install.browser_download_url := "https://host/app-v1.apk" |} ] |}.

Definition urlopen_json (url : string) : Result Install.exn Install.Release :=
  Ok release.

Definition urlopen_bare (url : string) : Result Install.exn Install.Release :=
  Ok bare_release.

Definition urlretrieve (url path : string) :
  Result (Install.exn * option nat) nat := Ok 1024.

Definition shell (command : string) :
  Result Install.exn Install.CompletedProcess :=
  if Py.contains " -s D2 " command
  then Raise (Install.Exception "device offline")
  else if Py.contains " -s D1 " command
  then Ok {| Install.returncode := 0; Install.stdout := "Success";
             Install.stderr := EmptyString |}
  else Ok {| Install.returncode := 1; Install.stdout := EmptyString;
             Install.stderr := "INSTALL_FAILED" |}.

Definition gettempdir : string := "/tmp".

Definition path_join (a b : string) : string := a +:+ "/" +:+ b.

Definition no_such_file (path : string) : string :=
  "No such file or directory: " +:+ path.

(** Nobody else touches the files, or somebody removes them all. *)
Definition quiet (files : gmap string nat) : gmap string nat := files.
Definition wiped (files : gmap string nat) : gmap string nat := ∅.

Definition start : Install.State :=
  {| Install.fs := ∅; Install.trace := [] |}.

Definition apk_path : string := "/tmp/processor-lite-v2.apk".

(** A device with Termux, one without it, and a device whose bridge
    refuses every command with status 1. *)
Definition spawn_termux (args : list string) (w : unit) :
  SetupSsh.Spawned * unit :=
  (SetupSsh.Exited 0 "package:com.termux" EmptyString, w).

Definition spawn_bare (args : list string) (w : unit) :
  SetupSsh.Spawned * unit :=
  (SetupSsh.Exited 0 EmptyString EmptyString, w).

Definition spawn_refused (args : list string) (w : unit) :
  SetupSsh.Spawned * unit :=
  (SetupSsh.Exited 1 EmptyString "adb: error: device offline", w).

Definition mktemp (content : string) (w : unit) : SetupSsh.Created * unit :=
  (SetupSsh.TempFile "/tmp/tmpk3x9.sh", w).

Definition boot : SetupSsh.State unit :=
  {| SetupSsh.world := tt; SetupSsh.log := [] |}.

Definition push_args : list string :=
  ["adb"; "-s"; "D1"; "push"; "/tmp/tmpk3x9.sh"; "/data/local/tmp/setup_ssh.sh"].

(** What the bridge hands back for the third device. *)
Definition failed_install : Install.CompletedProcess :=
  {| Install.returncode := 1; Install.stdout := EmptyString;
     Install.stderr := "INSTALL_FAILED" |}.

Definition not_found : Install.exn :=
  Install.Exception "Could not find processor-lite APK in latest release".

Definition schedule : list Install.Tick :=
  [Install.Yield 0; Install.Start 2; Install.Finish 1; Install.Finish 2;
   Install.Start 7; Install.Yield 2; Install.Start 0; Install.Finish 2].

(** A network that is down, and a download that breaks off. *)
Definition timed_out : Install.exn := Install.Exception "timed out".

Definition urlopen_down (url : string) : Result Install.exn Install.Release :=
  Raise timed_out.

Definition urlretrieve_broken (url path : string) :
  Result (Install.exn * option nat) nat :=
  Raise (timed_out, Some 512).

(** An install command that the device refuses with status 1. *)
Definition os_refused (command : string) : SetupSsh.Spawned :=
  SetupSsh.Exited 1 EmptyString "INSTALL_FAILED".

(** Two passwords: the one of the test plan, with a single quote, double
    quotes and blanks, and one with a NUL character in the middle. *)
Definition quoted_secret : string :=
  "it's a " +:+ Py.dq +:+ "test" +:+ Py.dq.

Definition nul_secret : string :=
  String "a" (String "000" (String "b" EmptyString)).

(** A device with Termux whose bridge refuses the push with status 1. *)
Definition spawn_no_push (args : list string) (w : unit) :
  SetupSsh.Spawned * unit :=
  if bool_decide ("push" ∈ args)
  then (SetupSsh.Exited 1 EmptyString "adb: error: failed to copy", w)
  else (SetupSsh.Exited 0 "package:com.termux" EmptyString, w).

End Sample.

(** * Properties *)

(** ** Strings *)

Section StringFacts.

Lemma app_cons (c : ascii) (s t : string) :
  String c s +:+ t = String c (s +:+ t).
Proof. reflexivity. Qed.

Lemma app_empty_l (t : string) : EmptyString +:+ t = t.
Proof. reflexivity. Qed.

Lemma app_assoc_s (s t u : string) : (s +:+ t) +:+ u = s +:+ (t +:+ u).
Proof.
  induction s as [|c s IH]; [reflexivity|].
  rewrite !app_cons. now rewrite IH.
Qed.

Lemma app_inv_head_s (s t u : string) : s +:+ t = s +:+ u -> t = u.
Proof.
  induction s as [|c s IH]; [trivial|].
  rewrite !app_cons. intros H. injection H as H. auto.
Qed.

End StringFacts.

(** ** Quoting for the shell *)

Section Quoting.

(** A character [shlex.quote] leaves bare is an ordinary character for the
    shell. *)
Lemma safe_is_plain (c : ascii) :
  Py.is_safe c = true ->
  Ascii.eqb c "000" = false /\
  Sh.is_delimiter c = false /\ Ascii.eqb c "'" = false /\
  Ascii.eqb c "034" = false /\ Ascii.eqb c "\" = false /\
  Sh.is_expansion c || Sh.is_pattern c = false.
Proof.
  destruct c as [[] [] [] [] [] [] [] []]; vm_compute; intros H;
    first [discriminate H | repeat split].
Qed.

Lemma read_bare_plain (nul : bool) (c : ascii) (s : string) :
  Py.is_safe c = true ->
  Sh.read nul Sh.Bare (String c s) = Sh.push c (Sh.read nul Sh.Bare s).
Proof.
  intros H. destruct (safe_is_plain c H) as (H0 & H1 & H2 & H3 & H4 & H5).
  cbn [Sh.read]. now rewrite H0, andb_false_r, H1, H2, H3, H4, H5.
Qed.

Lemma read_bare_newline (nul : bool) (rest : string) :
  Sh.read nul Sh.Bare (Py.nl +:+ rest) = Some (EmptyString, Py.nl +:+ rest).
Proof. now destruct nul. Qed.

(** A run of safe characters before a newline is read back as it is. *)
Lemma read_bare_safe (nul : bool) (s rest : string) :
  Py.forall_chars Py.is_safe s = true ->
  Sh.read nul Sh.Bare (s +:+ Py.nl +:+ rest) = Some (s, Py.nl +:+ rest).
Proof.
  induction s as [|c s IH]; intros H.
  - apply read_bare_newline.
  - cbn [Py.forall_chars] in H. apply andb_prop in H as [Hc Hs].
    rewrite app_cons, read_bare_plain by exact Hc.
    now rewrite IH.
Qed.

(** Inside single quotes, the text with every single quote replaced by
    the five characters quote, double quote, quote, double quote, quote
    reads back as the text, provided no character of it is dropped. *)
Lemma read_single_escaped (nul : bool) (s rest : string) :
  nul = false \/ Py.no_nul s = true ->
  Sh.read nul Sh.Single
    (Py.replace_char "'" (Py.sq +:+ Py.dq +:+ Py.sq +:+ Py.dq +:+ Py.sq) s
     +:+ Py.sq +:+ Py.nl +:+ rest)
  = Some (s, Py.nl +:+ rest).
Proof.
  induction s as [|c s IH]; intros Hnul.
  - now destruct nul.
  - assert (Hs : nul = false \/ Py.no_nul s = true).
    { destruct Hnul as [?|H]; [now left | right].
      unfold Py.no_nul in *. cbn [Py.forall_chars] in H.
      now apply andb_prop in H as [_ H]. }
    assert (Hc : nul && Ascii.eqb c "000" = false).
    { destruct Hnul as [->|H]; [reflexivity|].
      unfold Py.no_nul in H. cbn [Py.forall_chars] in H.
      apply andb_prop in H as [H _]. apply negb_true_iff in H.
      now rewrite H, andb_false_r. }
    specialize (IH Hs).
    cbn [Py.replace_char]. destruct (Ascii.eqb c "'") eqn:Hq.
    + apply Ascii.eqb_eq in Hq. subst c.
      transitivity (Sh.push "'" (Sh.read nul Sh.Single
        (Py.replace_char "'" (Py.sq +:+ Py.dq +:+ Py.sq +:+ Py.dq +:+ Py.sq) s
         +:+ Py.sq +:+ Py.nl +:+ rest))).
      * now destruct nul.
      * now rewrite IH.
    + rewrite app_cons. cbn [Sh.read]. rewrite Hc, Hq. now rewrite IH.
Qed.

Lemma read_quote (nul : bool) (s rest : string) :
  nul = false \/ Py.no_nul s = true ->
  Sh.read nul Sh.Bare (Py.quote s +:+ Py.nl +:+ rest)
  = Some (s, Py.nl +:+ rest).
Proof.
  intros Hnul. unfold Py.quote. destruct (Py.is_empty s) eqn:He.
  - destruct s; [now destruct nul | discriminate He].
  - unfold Py.find_unsafe. rewrite negb_involutive.
    destruct (Py.forall_chars Py.is_safe s) eqn:Hs.
    + now apply read_bare_safe.
    + rewrite !app_assoc_s.
      transitivity (Sh.read nul Sh.Single
        (Py.replace_char "'" (Py.sq +:+ Py.dq +:+ Py.sq +:+ Py.dq +:+ Py.sq) s
         +:+ Py.sq +:+ Py.nl +:+ rest)).
      * now destruct nul.
      * now apply read_single_escaped.
Qed.

(** The rendered script, read by a shell: the fourth line assigns to
    TERMUX_SSH_PASSWORD one word that denotes the password, and the script
    that follows is the fixed skeleton. *)
Lemma script_round_trip (secret : string) :
  Py.no_nul secret = true ->
  Sh.assignment
    (Sh.skip_line (Sh.skip_line (Sh.skip_line
       (SetupSsh.termux_bash_script (Py.quote secret)))))
  = Some ("TERMUX_SSH_PASSWORD", secret, SetupSsh.script_tail).
Proof.
  intros Hnul. unfold SetupSsh.termux_bash_script.
  change (Sh.skip_line (Sh.skip_line (Sh.skip_line
            (SetupSsh.script_head +:+ "TERMUX_SSH_PASSWORD=" +:+
             Py.quote secret +:+ SetupSsh.script_tail))))
    with ("TERMUX_SSH_PASSWORD=" +:+ Py.quote secret +:+ SetupSsh.script_tail).
  change (Sh.assignment
            ("TERMUX_SSH_PASSWORD=" +:+ Py.quote secret +:+ SetupSsh.script_tail))
    with (match Sh.word Sh.Bare (Py.quote secret +:+ SetupSsh.script_tail) with
          | Some (value, String "010" rest) =>
              Some ("TERMUX_SSH_PASSWORD", value, String "010" rest)
          | _ => None
          end).
  pose proof (read_quote true secret (Sh.skip_line SetupSsh.script_tail)
                (or_intror Hnul)) as H.
  change (Py.nl +:+ Sh.skip_line SetupSsh.script_tail)
    with SetupSsh.script_tail in H.
  unfold Sh.word. rewrite H. reflexivity.
Qed.

(** The password of the test plan, with a single quote, double quotes and
    blanks: what is written into the script and what the shell reads. *)
Example quote_sample :
  let secret := "it's a " +:+ Py.dq +:+ "test" +:+ Py.dq in
  Py.quote secret
    = "'it'" +:+ Py.dq +:+ "'" +:+ Py.dq +:+ "'s a "
      +:+ Py.dq +:+ "test" +:+ Py.dq +:+ "'"
  /\ Sh.word Sh.Bare (Py.quote secret +:+ Py.nl)
      = Some (secret, Py.nl).
Proof. split; reflexivity. Qed.

(** X10. [shlex.quote] loses nothing: two passwords that are quoted to
    the same text are the same password. *)
Theorem quote_injective (s1 s2 : string) :
  Py.quote s1 = Py.quote s2 -> s1 = s2.
Proof.
  intros H.
  pose proof (read_quote false s1 EmptyString (or_introl eq_refl)) as H1.
  pose proof (read_quote false s2 EmptyString (or_introl eq_refl)) as H2.
  rewrite H in H1. rewrite H1 in H2. now injection H2.
Qed.

End Quoting.

(** ** Splitting the device list *)

Section Splitting.

Lemma app_empty_r (s : string) : s +:+ EmptyString = s.
Proof.
  induction s as [|c s IH]; [reflexivity|]. rewrite app_cons. now rewrite IH.
Qed.

Lemma is_empty_snoc (w : string) (c : ascii) :
  Py.is_empty (w +:+ String c EmptyString) = false.
Proof. now destruct w. Qed.

Lemma forall_chars_app (p : ascii -> bool) (s t : string) :
  Py.forall_chars p (s +:+ t) = Py.forall_chars p s && Py.forall_chars p t.
Proof.
  induction s as [|c s IH]; [reflexivity|].
  rewrite app_cons. cbn [Py.forall_chars]. now rewrite IH, andb_assoc.
Qed.

Lemma split_from_nil_iff (w s : string) :
  Py.split_from w s = []
  <-> Py.is_empty w = true /\ Py.forall_chars Py.isspace s = true.
Proof.
  revert w. induction s as [|c s IH]; intros w; cbn [Py.split_from
    Py.forall_chars].
  - destruct (Py.is_empty w); split; try discriminate; auto.
    intros [H _]. discriminate H.
  - destruct (Py.isspace c).
    + destruct (Py.is_empty w) eqn:Hw.
      * rewrite IH. cbn. tauto.
      * split; [discriminate|]. intros [H _]. discriminate H.
    + rewrite IH, is_empty_snoc. cbn. split; intros [H H']; discriminate.
Qed.

Lemma split_from_tokens (w s : string) :
  Py.forall_chars (fun c => negb (Py.isspace c)) w = true ->
  Forall (fun x => Py.is_token x = true) (Py.split_from w s).
Proof.
  revert w. induction s as [|c s IH]; intros w Hw; cbn [Py.split_from].
  - destruct (Py.is_empty w) eqn:He; [apply Forall_nil_2|].
    apply Forall_cons. split; [|apply Forall_nil_2].
    unfold Py.is_token. now rewrite He, Hw.
  - destruct (Py.isspace c) eqn:Hc.
    + destruct (Py.is_empty w) eqn:He; [now apply IH|].
      apply Forall_cons. split; [|now apply IH].
      unfold Py.is_token. now rewrite He, Hw.
    + apply IH. rewrite forall_chars_app, Hw. cbn. now rewrite Hc.
Qed.

Lemma split_from_token (t w s : string) :
  Py.forall_chars (fun c => negb (Py.isspace c)) t = true ->
  Py.split_from w (t +:+ s) = Py.split_from (w +:+ t) s.
Proof.
  revert w. induction t as [|c t IH]; intros w Ht.
  - now rewrite app_empty_l, app_empty_r.
  - cbn [Py.forall_chars] in Ht. apply andb_prop in Ht as [Hc Ht].
    rewrite app_cons. cbn [Py.split_from].
    apply negb_true_iff in Hc. rewrite Hc, IH by exact Ht.
    now rewrite app_assoc_s.
Qed.

(** X1. [split] returns no item exactly for a string of white space only,
    the empty string among them: with such a [devices] variable no device
    is selected. *)
Theorem split_nil_iff (s : string) :
  Py.split s = [] <-> Py.forall_chars Py.isspace s = true.
Proof.
  unfold Py.split. rewrite split_from_nil_iff. cbn. tauto.
Qed.

(** X2. Every item [split] returns is a token: it is not empty and holds
    no white space, so a device identifier is never blank and never
    carries a blank into a command line. *)
Theorem split_tokens (s : string) :
  Forall (fun x => Py.is_token x = true) (Py.split s).
Proof. now apply split_from_tokens. Qed.

(** X3. Joining tokens with single spaces and splitting the line gives
    the tokens back, in order: a list of identifiers passes through the
    [devices] variable unchanged. *)
Theorem split_join (l : list string) :
  Forall (fun x => Py.is_token x = true) l ->
  Py.split (Py.join " " l) = l.
Proof.
  unfold Py.split. induction 1 as [|p l Hp Hl IH]; [reflexivity|].
  unfold Py.is_token in Hp. apply andb_prop in Hp as [Hne Hp].
  apply negb_true_iff in Hne.
  destruct l as [|q l].
  - cbn [Py.join]. rewrite <- (app_empty_r p) at 1.
    rewrite split_from_token by exact Hp.
    rewrite app_empty_l. cbn [Py.split_from]. now rewrite Hne.
  - change (Py.join " " (p :: q :: l))
      with (p +:+ " " +:+ Py.join " " (q :: l)).
    rewrite split_from_token by exact Hp.
    rewrite app_empty_l, app_cons, app_empty_l. cbn [Py.split_from].
    change (Py.isspace " ") with true. cbn iota. now rewrite Hne, IH.
Qed.

End Splitting.

(** ** The provisioning flow *)

Section Provisioning.

Context {World : Type}.
Variable spawn : list string -> World -> SetupSsh.Spawned * World.
Variable mktemp : string -> World -> SetupSsh.Created * World.

Local Abbreviation main := (SetupSsh.main World spawn mktemp).
Local Abbreviation run := (SetupSsh.run World spawn).
Local Abbreviation State := (SetupSsh.State World).

Lemma rstrip_blank (s : string) :
  Py.forall_chars Py.isspace s = true -> Py.rstrip s = EmptyString.
Proof.
  induction s as [|c s IH]; [reflexivity|].
  cbn [Py.forall_chars Py.rstrip]. intros H.
  apply andb_prop in H as [Hc Hs]. now rewrite IH, Hc.
Qed.

Lemma rstrip_not_blank (s : string) :
  Py.forall_chars Py.isspace s = false -> Py.is_empty (Py.rstrip s) = false.
Proof.
  induction s as [|c s IH]; [discriminate|].
  cbn [Py.forall_chars Py.rstrip]. intros H.
  destruct (Py.rstrip s) eqn:Hr; [|reflexivity].
  destruct (Py.isspace c); [|reflexivity].
  cbn in H. specialize (IH H). discriminate IH.
Qed.

Lemma lstrip_blank (s : string) :
  Py.forall_chars Py.isspace (Py.lstrip s) = Py.forall_chars Py.isspace s.
Proof.
  induction s as [|c s IH]; [reflexivity|].
  cbn [Py.lstrip]. destruct (Py.isspace c) eqn:Hc.
  - cbn [Py.forall_chars]. now rewrite Hc, IH.
  - reflexivity.
Qed.

(** [not s.strip()] holds exactly for the strings made of white space only,
    the empty one among them. *)
Lemma strip_empty_iff (s : string) :
  Py.is_empty (Py.strip s) = Py.forall_chars Py.isspace s.
Proof.
  unfold Py.strip. destruct (Py.forall_chars Py.isspace s) eqn:H.
  - rewrite <- lstrip_blank in H. now rewrite rstrip_blank.
  - rewrite <- lstrip_blank in H. now apply rstrip_not_blank.
Qed.

(** The arguments of the package query for a device. *)
Local Abbreviation query env device_id :=
  [SetupSsh.ADB env; "-s"; device_id; "shell"; "pm"; "list"; "packages";
   "com.termux"].

Ltac spawn_cases :=
  match goal with
  | |- context [spawn ?a ?w] =>
      let E := fresh "Espawn" in
      destruct (spawn a w) as [[? ? ?|?|? ?] ?] eqn:E; cbn
  | |- context [mktemp ?c ?w] =>
      let E := fresh "Etemp" in
      destruct (mktemp c w) as [[?|?] ?] eqn:E; cbn
  | |- context [(?c =? 0)%Z] => destruct (c =? 0)%Z; cbn
  end.

(** C7. The exit status of the provisioning flow: 2 with no device or with
    an empty or all-blank password, the state untouched (no file written,
    no device contacted); 3 when the package query does not list the
    Termux package, after that single query; and when [main] returns
    normally, 0 exactly when none of the three checks failed. *)
Theorem provisioning_exit_status
  (env : gmap string string) (password : string) (st : State) :
  (SetupSsh.DEVICES env = [] \/ Py.forall_chars Py.isspace password = true ->
   main env (SetupSsh.PyStr password) st = (Ok 2%Z, st))
  /\
  (forall device_id rest code out err w,
     SetupSsh.DEVICES env = device_id :: rest ->
     Py.forall_chars Py.isspace password = false ->
     spawn (query env device_id) (SetupSsh.world World st)
       = (SetupSsh.Exited code out err, w) ->
     Py.contains "com.termux" out = false ->
     main env (SetupSsh.PyStr password) st
       = (Ok 3%Z,
          {| SetupSsh.world := w;
             SetupSsh.log := SetupSsh.log World st
                             ++ [SetupSsh.Spawn (query env device_id)] |}))
  /\
  (forall n st',
     main env (SetupSsh.PyStr password) st = (Ok n, st') ->
     (n = 0%Z <->
      exists device_id rest code out err w,
        SetupSsh.DEVICES env = device_id :: rest /\
        Py.forall_chars Py.isspace password = false /\
        spawn (query env device_id) (SetupSsh.world World st)
          = (SetupSsh.Exited code out err, w) /\
        Py.contains "com.termux" out = true)).
Proof.
  split; [|split].
  - intros H. unfold SetupSsh.main.
    destruct (SetupSsh.DEVICES env) as [|d ds]; [reflexivity|].
    destruct H as [H|H]; [discriminate H|].
    now rewrite strip_empty_iff, H.
  - intros d ds code out err w Hd Hp Hq Hc. unfold SetupSsh.main.
    rewrite Hd, strip_empty_iff, Hp.
    unfold SetupSsh.bind, SetupSsh.check_termux_installed, SetupSsh.bind,
      SetupSsh.run.
    rewrite Hq. cbn. now rewrite Hc.
  - intros n st'. unfold SetupSsh.main.
    destruct (SetupSsh.DEVICES env) as [|d ds] eqn:Hd.
    { intros [= <- <-]. split; [discriminate|].
      intros (? & ? & ? & ? & ? & ? & [=] & _). }
    rewrite strip_empty_iff.
    destruct (Py.forall_chars Py.isspace password) eqn:Hp.
    { intros [= <- <-]. split; [discriminate|].
      intros (? & ? & ? & ? & ? & ? & _ & [=] & _). }
    unfold SetupSsh.bind at 1.
    unfold SetupSsh.check_termux_installed, SetupSsh.bind at 1, SetupSsh.run.
    destruct (spawn (query env d) (SetupSsh.world World st))
      as [[code out err|msg|code msg] w] eqn:Hq; cbn; [|discriminate..].
    destruct (Py.contains "com.termux" out) eqn:Hc; cbn.
    + intros H. split.
      * intros _. exists d, ds, code, out, err, w. auto.
      * intros _. revert H.
        unfold SetupSsh.bind, SetupSsh.write_temp, SetupSsh.run,
          SetupSsh.sleep, SetupSsh.ret; cbn.
        repeat spawn_cases; congruence.
    + intros [= <- <-]. split; [discriminate|].
      intros (d' & ds' & code' & out' & err' & w' & [= <- <-] & _ & Hq' & Hc').
      rewrite Hq in Hq'. injection Hq' as <- <- <- <-. congruence.
Qed.

Local Abbreviation only_logs := (SetupSsh.only_logs World).

Lemma only_logs_ret {A} ok (a : A) : only_logs ok (SetupSsh.ret World a).
Proof. intros st. exists []. now rewrite app_nil_r. Qed.

Lemma only_logs_bind {A B} ok (m : SetupSsh.M World A)
  (k : A -> SetupSsh.M World B) :
  only_logs ok m -> (forall a, only_logs ok (k a)) ->
  only_logs ok (SetupSsh.bind World m k).
Proof.
  intros Hm Hk st. unfold SetupSsh.bind.
  destruct (Hm st) as (evs & Hl & Hok).
  destruct (m st) as [[a|e] st1]; cbn in *.
  - destruct (Hk a st1) as (evs' & Hl' & Hok').
    exists (evs ++ evs'). rewrite Hl', Hl, app_assoc, forallb_app, Hok, Hok'.
    auto.
  - eauto.
Qed.

Lemma only_logs_sleep ok ms :
  ok (SetupSsh.Sleep ms) = true -> only_logs ok (SetupSsh.sleep World ms).
Proof. intros H st. exists [SetupSsh.Sleep ms]. cbn. now rewrite H. Qed.

Lemma only_logs_write_temp ok content :
  (forall path, ok (SetupSsh.WriteTemp path content) = true) ->
  only_logs ok (SetupSsh.write_temp World mktemp content).
Proof.
  intros H st. unfold SetupSsh.write_temp.
  destruct (mktemp content (SetupSsh.world World st)) as [[path|msg] w]; cbn.
  - exists [SetupSsh.WriteTemp path content]. cbn. now rewrite H.
  - exists []. now rewrite app_nil_r.
Qed.

Lemma only_logs_run ok args check capture :
  ok (SetupSsh.Spawn args) = true -> only_logs ok (run args check capture).
Proof.
  intros H st. exists [SetupSsh.Spawn args]. unfold SetupSsh.run.
  destruct (spawn args (SetupSsh.world World st))
    as [[code out err|msg|code msg] w].
  - destruct (check && negb (code =? 0)%Z); cbn; now rewrite H.
  - cbn. now rewrite H.
  - destruct capture; [|destruct (check && negb (code =? 0)%Z)];
      cbn; now rewrite H.
Qed.

Lemma main_only_targets (env : gmap string string) pw device_id rest :
  SetupSsh.DEVICES env = device_id :: rest ->
  only_logs (SetupSsh.targets (SetupSsh.ADB env) device_id) (main env pw).
Proof.
  intros Hd. unfold SetupSsh.main. rewrite Hd.
  assert (Hrun : forall tail check capture,
             only_logs (SetupSsh.targets (SetupSsh.ADB env) device_id)
               (run (SetupSsh.ADB env :: "-s" :: device_id :: tail)
                    check capture)).
  { intros. apply only_logs_run. cbn. now rewrite !String.eqb_refl. }
  destruct pw as [password|]; [|apply only_logs_ret].
  destruct (Py.is_empty (Py.strip password)); [apply only_logs_ret|].
  apply only_logs_bind.
  { unfold SetupSsh.check_termux_installed. apply only_logs_bind.
    - apply Hrun.
    - intros. apply only_logs_ret. }
  intros installed. destruct installed; cbn [negb]; [|apply only_logs_ret].
  repeat first
    [ apply only_logs_ret
    | apply Hrun
    | apply only_logs_sleep; reflexivity
    | apply only_logs_write_temp; reflexivity
    | apply only_logs_bind; [|intros ?] ].
Qed.

(** C10. Two runs whose [devices] variable lists the same first identifier
    behave alike: from the same state they yield the same result, the same
    final state and the same log; and every process a run starts is the
    bridge addressed to that first identifier. *)
Theorem only_first_device
  (env : gmap string string) (s1 s2 device_id : string)
  (rest1 rest2 : list string) (pw : SetupSsh.PyValue) (st : State) :
  Py.split s1 = device_id :: rest1 ->
  Py.split s2 = device_id :: rest2 ->
  main (<["devices" := s1]> env) pw st = main (<["devices" := s2]> env) pw st
  /\ exists evs,
       SetupSsh.log World (main (<["devices" := s1]> env) pw st).2
         = SetupSsh.log World st ++ evs
       /\ forallb (SetupSsh.targets (SetupSsh.ADB env) device_id) evs = true.
Proof.
  intros H1 H2.
  assert (Ha : forall s, SetupSsh.ADB (<["devices" := s]> env)
                         = SetupSsh.ADB env).
  { intros s. unfold SetupSsh.ADB. now rewrite lookup_insert_ne. }
  assert (Hd : forall s, SetupSsh.DEVICES (<["devices" := s]> env)
                         = Py.split s).
  { intros s. unfold SetupSsh.DEVICES. now rewrite lookup_insert_eq. }
  split.
  - unfold SetupSsh.main, SetupSsh.check_termux_installed.
    rewrite !Hd, H1, H2, !Ha. reflexivity.
  - rewrite <- (Ha s1). apply (main_only_targets _ pw device_id rest1).
    now rewrite Hd.
Qed.

(** The events [main] adds pass [ok] when the one script it writes does. *)
Lemma main_only_logs ok (env : gmap string string) (password : string) :
  (forall args, ok (SetupSsh.Spawn args) = true) ->
  (forall ms, ok (SetupSsh.Sleep ms) = true) ->
  (forall path,
     ok (SetupSsh.WriteTemp path
           (SetupSsh.termux_bash_script (Py.quote password))) = true) ->
  only_logs ok (main env (SetupSsh.PyStr password)).
Proof.
  intros Hspawn Hsleep Hwrite. unfold SetupSsh.main.
  destruct (SetupSsh.DEVICES env) as [|d ds]; [apply only_logs_ret|].
  destruct (Py.is_empty (Py.strip password)); [apply only_logs_ret|].
  apply only_logs_bind.
  { unfold SetupSsh.check_termux_installed. apply only_logs_bind.
    - apply only_logs_run, Hspawn.
    - intros. apply only_logs_ret. }
  intros installed. destruct installed; cbn [negb]; [|apply only_logs_ret].
  repeat first
    [ apply only_logs_ret
    | apply only_logs_run, Hspawn
    | apply only_logs_sleep, Hsleep
    | apply only_logs_write_temp, Hwrite
    | apply only_logs_bind; [|intros ?] ].
Qed.

Ltac flow_cases :=
  unfold SetupSsh.check_termux_installed, SetupSsh.bind, SetupSsh.write_temp,
    SetupSsh.run, SetupSsh.sleep, SetupSsh.ret; cbn;
  repeat first
    [ match goal with
      | |- context [if ?b then _ else _] => destruct b eqn:?; cbn
      end
    | spawn_cases ].

(** A run that ends with status 0 wrote the script, the skeleton around
    the quoted password, to a local file. *)
Lemma success_wrote_script (env : gmap string string) (password : string)
  (st st' : State) :
  main env (SetupSsh.PyStr password) st = (Ok 0%Z, st') ->
  exists path evs,
    SetupSsh.log World st' = SetupSsh.log World st ++ evs
    /\ SetupSsh.WriteTemp path
         (SetupSsh.termux_bash_script (Py.quote password)) ∈ evs.
Proof.
  unfold SetupSsh.main.
  destruct (SetupSsh.DEVICES env) as [|d ds]; [discriminate|].
  destruct (Py.is_empty (Py.strip password)); [discriminate|].
  flow_cases; intros [= <-]; try discriminate.
  eexists _, _. cbn. split.
  - rewrite <- !app_assoc. reflexivity.
  - apply list_elem_of_further, list_elem_of_here.
Qed.

(** C3, as the code has it. For every password without a NUL character,
    whatever it holds otherwise (single quotes, double quotes, white
    space), a script file that [main] writes is the skeleton around the
    quoted password: read by a shell, its fourth line assigns to
    TERMUX_SSH_PASSWORD one word that denotes exactly the password, and
    the script that follows the assignment is the fixed skeleton.  A run
    that ends with status 0 has written such a file. *)
Theorem quote_round_trip (env : gmap string string) (password : string)
  (st : State) :
  Py.no_nul password = true ->
  exists evs,
    SetupSsh.log World (main env (SetupSsh.PyStr password) st).2
      = SetupSsh.log World st ++ evs
    /\ (forall path content,
          SetupSsh.WriteTemp path content ∈ evs ->
          content = SetupSsh.termux_bash_script (Py.quote password)
          /\ Sh.assignment
               (Sh.skip_line (Sh.skip_line (Sh.skip_line content)))
             = Some ("TERMUX_SSH_PASSWORD", password, SetupSsh.script_tail))
    /\ ((main env (SetupSsh.PyStr password) st).1 = Ok 0%Z ->
        exists path content, SetupSsh.WriteTemp path content ∈ evs).
Proof.
  intros Hnul.
  set (ok := fun ev =>
         match ev with
         | SetupSsh.WriteTemp _ content =>
             String.eqb content
               (SetupSsh.termux_bash_script (Py.quote password))
         | _ => true
         end).
  destruct (main_only_logs ok env password) with (st := st)
    as (evs & Hlog & Hok); try reflexivity.
  { intros path. apply String.eqb_refl. }
  exists evs. split; [exact Hlog|]. split.
  - intros path content Hin.
    rewrite forallb_forall in Hok.
    apply list_elem_of_In, Hok in Hin. cbn in Hin.
    apply String.eqb_eq in Hin. subst content.
    split; [reflexivity | now apply script_round_trip].
  - intros Hzero.
    destruct (main env (SetupSsh.PyStr password) st) as [r st'] eqn:Hmain.
    cbn [fst snd] in *. subst r.
    destruct (success_wrote_script env password st st' Hmain)
      as (path & evs' & Hlog' & Hin).
    rewrite Hlog in Hlog'. apply app_inv_head in Hlog'. subst evs'.
    eauto.
Qed.

(** X11. Whatever the bridge and the host do, the provisioning flow takes
    its steps in the one fixed order and skips none: the events of a run
    are a beginning of the sequence query, script file, force-stop, wait,
    push, chmod, launch, wait, text input, wait, key event. *)
Theorem steps_in_order (env : gmap string string) (password : string)
  (st : State) (device_id : string) (rest : list string) :
  SetupSsh.DEVICES env = device_id :: rest ->
  exists path evs,
    SetupSsh.log World (main env (SetupSsh.PyStr password) st).2
      = SetupSsh.log World st ++ evs
    /\ evs `prefix_of` SetupSsh.flow env device_id path password.
Proof.
  intros Hd. unfold SetupSsh.main. rewrite Hd.
  destruct (Py.is_empty (Py.strip password)).
  { exists EmptyString, []. cbn. rewrite app_nil_r. split; [reflexivity|].
    apply prefix_nil. }
  flow_cases;
    first
      [ exists EmptyString; eexists; split;
        [rewrite <- ?app_assoc; reflexivity | eexists; reflexivity]
      | eexists _, _; split;
        [rewrite <- ?app_assoc; reflexivity | eexists; reflexivity] ].
Qed.

(** X12. A run of the provisioning flow that ends with status 0 went
    through every step: its events are the whole sequence, for the first
    device of the list and the file the script was written to. *)
Theorem success_ran_every_step (env : gmap string string) (password : string)
  (st st' : State) :
  main env (SetupSsh.PyStr password) st = (Ok 0%Z, st') ->
  exists device_id rest path,
    SetupSsh.DEVICES env = device_id :: rest
    /\ SetupSsh.log World st'
       = SetupSsh.log World st ++ SetupSsh.flow env device_id path password.
Proof.
  unfold SetupSsh.main.
  destruct (SetupSsh.DEVICES env) as [|d ds]; [discriminate|].
  destruct (Py.is_empty (Py.strip password)); [discriminate|].
  flow_cases; intros [= <-]; try discriminate.
  eexists d, ds, _. split; [reflexivity|]. cbn.
  rewrite <- !app_assoc. reflexivity.
Qed.

(** X13. The provisioning flow raises CalledProcessError only for the two
    checked steps, the push of the script and the chmod, both addressed to
    the first device of the list, and only when the bridge exits with a
    status other than zero: the exit status of every other step is
    ignored. *)
Theorem only_push_and_chmod_raise (env : gmap string string)
  (pw : SetupSsh.PyValue) (st st' : State) (code : Z) (cmd : list string) :
  main env pw st = (Raise (SetupSsh.CalledProcessError code cmd), st') ->
  code <> 0%Z
  /\ exists device_id rest,
       SetupSsh.DEVICES env = device_id :: rest
       /\ ((exists path, cmd = [SetupSsh.ADB env; "-s"; device_id; "push"; path;
                                SetupSsh.device_script_path])
           \/ cmd = [SetupSsh.ADB env; "-s"; device_id; "shell"; "chmod";
                     "755"; SetupSsh.device_script_path]).
Proof.
  unfold SetupSsh.main.
  destruct (SetupSsh.DEVICES env) as [|d ds] eqn:Hdev; [discriminate|].
  destruct pw as [password|]; [|discriminate].
  destruct (Py.is_empty (Py.strip password)); [discriminate|].
  flow_cases; intros [= <- <-];
    (split;
     [ match goal with
       | H : negb (?c =? 0)%Z = true |- ?c <> 0%Z =>
           apply negb_true_iff in H; now apply Z.eqb_neq in H
       end
     | exists d, ds; eauto ]).
Qed.

(** X14. The exit status of the provisioning flow is 0, 2 or 3 when
    [main] returns and 1 when an exception leaves it: no other status
    is produced. *)
Theorem exit_status_range (env : gmap string string) (pw : SetupSsh.PyValue)
  (st : State) :
  let status := SetupSsh.exit_status (main env pw st).1 in
  status = 0%Z \/ status = 1%Z \/ status = 2%Z \/ status = 3%Z.
Proof.
  unfold SetupSsh.main.
  destruct (SetupSsh.DEVICES env) as [|d ds]; [cbn; auto|].
  destruct pw as [password|]; [|cbn; auto].
  destruct (Py.is_empty (Py.strip password)); [cbn; auto|].
  flow_cases; auto.
Qed.

End Provisioning.

(** ** The install flow *)

Section Fleet.

Variable environ : gmap string string.
Variable urlopen_json : string -> Result Install.exn Install.Release.
Variable urlretrieve : string -> string -> Result (Install.exn * option nat) nat.
Variable shell : string -> Result Install.exn Install.CompletedProcess.
Variable gettempdir : string.
Variable path_join : string -> string -> string.
Variable no_such_file : string -> string.
Variable interference : gmap string nat -> gmap string nat.

Local Abbreviation devices := (Install.devices environ).
Local Abbreviation install_command := (Install.install_command environ).
Local Abbreviation install_apk_on_device :=
  (Install.install_apk_on_device environ shell).
Local Abbreviation returned := (Install.returned environ shell).
Local Abbreviation tick := (Install.tick environ shell).
Local Abbreviation fan_out := (Install.fan_out environ shell interference).
Local Abbreviation get_latest_acurast_lite_apk :=
  (Install.get_latest_acurast_lite_apk urlopen_json).
Local Abbreviation main :=
  (Install.main environ urlopen_json urlretrieve shell gettempdir path_join
     no_such_file interference).
Local Abbreviation logged := Install.logged.
Local Abbreviation device_of := (Install.device_of environ).
Local Abbreviation outcome_of := (Install.outcome_of environ shell).
Local Abbreviation pool_inv := (Install.pool_inv environ shell).
Local Abbreviation call_order := (Install.call_order environ).

(** The line a completed bridge call is turned into. *)
Lemma install_completed device_id apk_path cp st :
  shell (install_command device_id apk_path) = Ok cp ->
  install_apk_on_device device_id apk_path st
  = (Ok (if (Install.returncode cp =? 0)%Z
            || Py.contains "Success" (Install.stdout cp)
         then "[" +:+ device_id +:+ "] Success"
         else "[" +:+ device_id +:+ "] Failed: " +:+
              (if Py.is_empty (Install.stderr cp) then Install.stdout cp
               else Install.stderr cp)),
     logged st [Install.Bridge (install_command device_id apk_path)]).
Proof.
  intros H. unfold Install.install_apk_on_device, Install.try_except,
    Install.bind, Install.subprocess_run, Install.bind, Install.emit,
    Install.lift. cbn. rewrite H.
  now destruct ((Install.returncode cp =? 0)%Z
                || Py.contains "Success" (Install.stdout cp)).
Qed.

(** The line an exception of the bridge call is turned into. *)
Lemma install_raised device_id apk_path e st :
  shell (install_command device_id apk_path) = Raise e ->
  install_apk_on_device device_id apk_path st
  = (Ok ("[" +:+ device_id +:+ "] Error: " +:+ Install.str e),
     logged st [Install.Bridge (install_command device_id apk_path)]).
Proof.
  intros H. unfold Install.install_apk_on_device, Install.try_except,
    Install.bind, Install.subprocess_run, Install.bind, Install.emit,
    Install.lift. cbn. now rewrite H.
Qed.

(** A call never raises, logs its bridge call, and returns a line that
    does not depend on the state. *)
Lemma install_total device_id apk_path :
  exists line,
    returned device_id apk_path = Ok line /\
    forall st,
      install_apk_on_device device_id apk_path st
      = (Ok line,
         logged st [Install.Bridge (install_command device_id apk_path)]).
Proof.
  unfold Install.returned.
  destruct (shell (install_command device_id apk_path)) as [cp|e] eqn:H.
  - eexists. split.
    + now rewrite (install_completed _ _ cp).
    + intros st. now apply install_completed.
  - eexists. split.
    + now rewrite (install_raised _ _ e).
    + intros st. now apply install_raised.
Qed.

Lemma success_not_failed (device_id msg : string) :
  "[" +:+ device_id +:+ "] Success" <> "[" +:+ device_id +:+ "] Failed: " +:+ msg.
Proof.
  intros H. rewrite !app_cons, !app_empty_l in H. injection H as H.
  apply app_inv_head_s in H. discriminate H.
Qed.

(** C4. For a bridge call that completes, the line returned is the Success
    line exactly when the exit code is zero or the captured output holds
    the marker; otherwise it is the Failed line with the error output, or
    the output when there is no error output. *)
Theorem install_classification
  (device_id apk_path : string) (cp : Install.CompletedProcess)
  (st : Install.State) :
  shell (install_command device_id apk_path) = Ok cp ->
  ((install_apk_on_device device_id apk_path st).1
     = Ok ("[" +:+ device_id +:+ "] Success")
   <-> (Install.returncode cp = 0%Z
        \/ Py.contains "Success" (Install.stdout cp) = true))
  /\
  (~ (Install.returncode cp = 0%Z
      \/ Py.contains "Success" (Install.stdout cp) = true) ->
   (install_apk_on_device device_id apk_path st).1
     = Ok ("[" +:+ device_id +:+ "] Failed: " +:+
           (if Py.is_empty (Install.stderr cp) then Install.stdout cp
            else Install.stderr cp))).
Proof.
  intros H. rewrite (install_completed _ _ cp st H). cbn [fst].
  destruct (Install.returncode cp =? 0)%Z eqn:Hrc; cbn [orb].
  - apply Z.eqb_eq in Hrc. split.
    + split; [intros _; now left | reflexivity].
    + intros Hn. exfalso. apply Hn. now left.
  - apply Z.eqb_neq in Hrc.
    destruct (Py.contains "Success" (Install.stdout cp)) eqn:Hc.
    + split.
      * split; [intros _; now right | reflexivity].
      * intros Hn. exfalso. apply Hn. now right.
    + split; [|reflexivity]. split.
      * intros Heq. exfalso.
        match type of Heq with
        | Ok (_ +:+ _ +:+ _ +:+ ?m) = Ok _ =>
            apply (success_not_failed device_id m); congruence
        end.
      * intros [?|?]; [contradiction | discriminate].
Qed.

Lemma future_device (i : nat) (d : string) :
  Install.future_to_device environ !! i = Some d ->
  i < length devices /\ device_of i = d.
Proof.
  unfold Install.future_to_device. rewrite lookup_map_seq_0. intros H.
  split; [now apply lookup_lt_Some in H|].
  unfold Install.device_of. now rewrite H.
Qed.

Lemma future_submitted (i : nat) :
  i < length devices ->
  Install.future_to_device environ !! i = Some (device_of i).
Proof.
  intros H. unfold Install.future_to_device, Install.device_of.
  rewrite lookup_map_seq_0.
  apply lookup_lt_is_Some in H as [d ->]. reflexivity.
Qed.

Lemma outcomes_app (evs evs' : list Install.Event) :
  Install.outcomes (evs ++ evs') = Install.outcomes evs ++ Install.outcomes evs'.
Proof. apply omap_app. Qed.

Section Pool.

Variable apk_path : string.
Variable st0 : Install.State.

Local Abbreviation run_ticks :=
  (foldl (fun ps t => tick apk_path t ps)).

(** A future is started when a thread is busy with it or it is done. *)
Local Abbreviation started pool i :=
  (i ∈ Install.running pool \/ is_Some (Install.done pool !! i)).

Lemma tick_inv (t : Install.Tick) (ps : Install.Pool * Install.State) :
  pool_inv apk_path st0 ps -> pool_inv apk_path st0 (tick apk_path t ps).
Proof.
  intros Hinv.
  destruct Hinv as [Hfs Hrn Hr Hnd Hy Hd (evs & Htr & Hev & Hout & Hbr)].
  assert (Hsame : pool_inv apk_path st0 ps).
  { constructor; eauto. }
  destruct ps as [pool st]. cbn [fst snd] in *.
  destruct t as [i|i|i]; cbn [Install.tick].
  - destruct (Install.future_to_device environ !! i) as [d|] eqn:Hfut;
      [|exact Hsame].
    case_bool_decide as Hrun; [exact Hsame|].
    case_bool_decide as Hdone; [exact Hsame|].
    destruct (length (Install.running pool) <? Install.max_workers environ);
      [|exact Hsame].
    apply future_device in Hfut as [Hlt Hdev]. cbn [orb negb].
    constructor;
      cbn [fst snd Install.running Install.done Install.yielded].
    + exact Hfs.
    + apply NoDup_cons. auto.
    + intros j [->|Hj]%elem_of_cons; [|auto].
      split; [exact Hlt|]. now apply eq_None_not_Some.
    + exact Hnd.
    + exact Hy.
    + exact Hd.
    + exists evs. auto.
  - destruct (Install.future_to_device environ !! i) as [d|] eqn:Hfut;
      [|exact Hsame].
    case_bool_decide as Hrun; [|exact Hsame].
    apply future_device in Hfut as [Hlt Hdev].
    destruct (install_total d apk_path) as (line & Hret & Hcall).
    rewrite Hcall. constructor;
      cbn [fst snd Install.running Install.done Install.yielded].
    + exact Hfs.
    + now apply NoDup_filter.
    + intros j [Hne Hj]%list_elem_of_filter.
      split; [now apply Hr|]. rewrite lookup_insert_ne by congruence.
      now apply Hr.
    + exact Hnd.
    + intros j Hj. rewrite lookup_insert_is_Some.
      destruct (decide (i = j)); [now left | right; auto].
    + intros j. rewrite lookup_insert. destruct (decide (i = j)) as [<-|Hne].
      * intros _. split; [exact Hlt|]. now rewrite Hdev, Hret.
      * apply Hd.
    + exists (evs ++ [Install.Bridge (install_command d apk_path)]).
      cbn. rewrite Htr, app_assoc. split; [reflexivity|].
      rewrite forallb_app, Hev, outcomes_app, app_nil_r.
      repeat split; [exact Hout|].
      intros j. rewrite lookup_insert, elem_of_app.
      destruct (decide (i = j)) as [<-|Hne].
      * intros _. right. rewrite Hdev. apply list_elem_of_singleton.
        reflexivity.
      * intros Hj. left. auto.
  - destruct (Install.future_to_device environ !! i) as [d|] eqn:Hfut;
      [|exact Hsame].
    destruct (Install.done pool !! i) as [r|] eqn:Hdone; [|exact Hsame].
    case_bool_decide as Hin; [exact Hsame|].
    apply future_device in Hfut as [Hlt Hdev].
    constructor;
      cbn [fst snd Install.running Install.done Install.yielded].
    + exact Hfs.
    + exact Hrn.
    + exact Hr.
    + apply NoDup_cons. auto.
    + intros j [->|Hj]%elem_of_cons; [now rewrite Hdone | auto].
    + exact Hd.
    + exists (evs ++ [Install.Outcome d (Install.report d r)]).
      cbn [Install.trace]. rewrite Htr, app_assoc. split; [reflexivity|].
      rewrite forallb_app, Hev, outcomes_app, reverse_cons, fmap_app, Hout.
      repeat split.
      * cbn. unfold Install.outcome_of. rewrite Hdev.
        destruct (Hd i) as [_ Hres]; [now rewrite Hdone|].
        rewrite Hdone, Hdev in Hres. injection Hres as ->. reflexivity.
      * intros j Hj. apply elem_of_app. left. auto.
Qed.

Lemma run_inv (ticks : list Install.Tick) (ps : Install.Pool * Install.State) :
  pool_inv apk_path st0 ps ->
  pool_inv apk_path st0 (run_ticks ps ticks).
Proof.
  revert ps. induction ticks as [|t ticks IH]; intros ps H; [exact H|].
  cbn [foldl]. apply IH. now apply tick_inv.
Qed.

Lemma tick_started_mono t (ps : Install.Pool * Install.State) (i : nat) :
  started ps.1 i -> started (tick apk_path t ps).1 i.
Proof.
  destruct ps as [pool st]. cbn [fst]. intros H.
  destruct t as [j|j|j]; cbn [Install.tick].
  - destruct (Install.future_to_device environ !! j); [|exact H].
    destruct (_ || _ || _); [exact H|]. cbn.
    destruct H as [H|H]; [left; apply elem_of_cons; now right | now right].
  - destruct (Install.future_to_device environ !! j); [|exact H].
    case_bool_decide as Hrun; [|exact H].
    destruct (install_apk_on_device _ apk_path st). cbn.
    rewrite lookup_insert_is_Some, list_elem_of_filter.
    destruct (decide (j = i)) as [->|Hne]; [right; now left|].
    destruct H as [H|H]; [left | right; right]; auto.
  - destruct (Install.future_to_device environ !! j); [|exact H].
    destruct (Install.done pool !! j); [|exact H].
    case_bool_decide; exact H.
Qed.

Lemma tick_done_mono t (ps : Install.Pool * Install.State) (i : nat) :
  is_Some (Install.done ps.1 !! i) ->
  is_Some (Install.done (tick apk_path t ps).1 !! i).
Proof.
  destruct ps as [pool st]. intros H.
  destruct t as [j|j|j]; cbn [Install.tick].
  - destruct (Install.future_to_device environ !! j); [|exact H].
    now destruct (_ || _ || _).
  - destruct (Install.future_to_device environ !! j); [|exact H].
    case_bool_decide as Hrun; [|exact H].
    destruct (install_apk_on_device _ apk_path st). cbn.
    rewrite lookup_insert_is_Some. destruct (decide (j = i)); auto.
  - destruct (Install.future_to_device environ !! j); [|exact H].
    destruct (Install.done pool !! j); [|exact H].
    case_bool_decide; exact H.
Qed.

Lemma tick_yielded_mono t (ps : Install.Pool * Install.State) (i : nat) :
  i ∈ Install.yielded ps.1 -> i ∈ Install.yielded (tick apk_path t ps).1.
Proof.
  destruct ps as [pool st]. intros H.
  destruct t as [j|j|j]; cbn [Install.tick].
  - destruct (Install.future_to_device environ !! j); [|exact H].
    now destruct (_ || _ || _).
  - destruct (Install.future_to_device environ !! j); [|exact H].
    case_bool_decide as Hrun; [|exact H].
    now destruct (install_apk_on_device _ apk_path st).
  - destruct (Install.future_to_device environ !! j); [|exact H].
    destruct (Install.done pool !! j); [|exact H].
    case_bool_decide; [exact H|]. cbn. apply elem_of_cons. now right.
Qed.

Lemma run_started_mono ticks (ps : Install.Pool * Install.State) (i : nat) :
  started ps.1 i -> started (run_ticks ps ticks).1 i.
Proof.
  revert ps. induction ticks as [|t ticks IH]; intros ps H; [exact H|].
  cbn [foldl]. apply IH. now apply tick_started_mono.
Qed.

Lemma run_done_mono ticks (ps : Install.Pool * Install.State) (i : nat) :
  is_Some (Install.done ps.1 !! i) ->
  is_Some (Install.done (run_ticks ps ticks).1 !! i).
Proof.
  revert ps. induction ticks as [|t ticks IH]; intros ps H; [exact H|].
  cbn [foldl]. apply IH. now apply tick_done_mono.
Qed.

Lemma run_yielded_mono ticks (ps : Install.Pool * Install.State) (i : nat) :
  i ∈ Install.yielded ps.1 -> i ∈ Install.yielded (run_ticks ps ticks).1.
Proof.
  revert ps. induction ticks as [|t ticks IH]; intros ps H; [exact H|].
  cbn [foldl]. apply IH. now apply tick_yielded_mono.
Qed.

(** With one thread for each device, a thread is free as long as a
    submitted future is waiting. *)
Lemma thread_free (ps : Install.Pool * Install.State) (i : nat) :
  pool_inv apk_path st0 ps ->
  i < length devices ->
  i ∉ Install.running ps.1 ->
  length (Install.running ps.1) < Install.max_workers environ.
Proof.
  intros Hinv Hlt Hnot. unfold Install.max_workers.
  assert (Hsub : i :: Install.running ps.1 ⊆+ seq 0 (length devices)).
  { apply NoDup_submseteq.
    - apply NoDup_cons. split; [exact Hnot | apply Hinv].
    - intros j [->|Hj]%elem_of_cons; apply elem_of_seq.
      + lia.
      + apply (Install.inv_running _ _ _ _ _ Hinv) in Hj. lia. }
  apply submseteq_length in Hsub. rewrite length_seq in Hsub.
  cbn [length] in Hsub. lia.
Qed.

(** No submitted future waits for a thread: its call can be taken up at
    any moment, whatever the other futures did. *)
Lemma start_started (ps : Install.Pool * Install.State) (i : nat) :
  pool_inv apk_path st0 ps ->
  i < length devices ->
  started (tick apk_path (Install.Start i) ps).1 i.
Proof.
  intros Hinv Hlt. destruct ps as [pool st]. cbn [Install.tick].
  rewrite (future_submitted i Hlt).
  case_bool_decide as Hrun; [now left|].
  case_bool_decide as Hdone; [now right|].
  pose proof (thread_free (pool, st) i Hinv Hlt Hrun) as Hfree.
  apply Nat.ltb_lt in Hfree. cbn [fst] in Hfree. rewrite Hfree.
  cbn. left. apply elem_of_cons. now left.
Qed.

Lemma finish_done (ps : Install.Pool * Install.State) (i : nat) :
  i < length devices ->
  started ps.1 i ->
  is_Some (Install.done (tick apk_path (Install.Finish i) ps).1 !! i).
Proof.
  destruct ps as [pool st]. intros H Hs. cbn [Install.tick fst] in *.
  rewrite (future_submitted i H).
  case_bool_decide as Hrun.
  - destruct (install_apk_on_device _ apk_path st). cbn.
    rewrite lookup_insert_is_Some. now left.
  - destruct Hs as [Hs|Hs]; [contradiction | exact Hs].
Qed.

Lemma yield_yielded (ps : Install.Pool * Install.State) (i : nat) :
  i < length devices ->
  is_Some (Install.done ps.1 !! i) ->
  i ∈ Install.yielded (tick apk_path (Install.Yield i) ps).1.
Proof.
  destruct ps as [pool st]. intros H [r Hr]. cbn [Install.tick fst] in *.
  rewrite (future_submitted i H), Hr.
  case_bool_decide as Hin; [exact Hin|]. cbn. apply elem_of_cons. now left.
Qed.

Lemma drain_start (l : list nat) (ps : Install.Pool * Install.State) i :
  pool_inv apk_path st0 ps ->
  i ∈ l -> i < length devices ->
  started (run_ticks ps (Install.Start <$> l)).1 i.
Proof.
  revert ps. induction l as [|j l IH]; intros ps Hinv Hin Hlt.
  - now apply elem_of_nil in Hin.
  - cbn [fmap list_fmap foldl].
    apply elem_of_cons in Hin as [->|Hin].
    + apply run_started_mono. now apply start_started.
    + apply IH; auto. now apply tick_inv.
Qed.

Lemma drain_finish (l : list nat) (ps : Install.Pool * Install.State) i :
  i ∈ l -> i < length devices ->
  started ps.1 i ->
  is_Some (Install.done (run_ticks ps (Install.Finish <$> l)).1 !! i).
Proof.
  revert ps. induction l as [|j l IH]; intros ps Hin Hlt Hs.
  - now apply elem_of_nil in Hin.
  - cbn [fmap list_fmap foldl].
    apply elem_of_cons in Hin as [->|Hin].
    + apply run_done_mono. now apply finish_done.
    + apply IH; auto. now apply tick_started_mono.
Qed.

Lemma drain_yield (l : list nat) (ps : Install.Pool * Install.State) i :
  i ∈ l -> i < length devices ->
  is_Some (Install.done ps.1 !! i) ->
  i ∈ Install.yielded (run_ticks ps (Install.Yield <$> l)).1.
Proof.
  revert ps. induction l as [|j l IH]; intros ps Hin Hlt Hd.
  - now apply elem_of_nil in Hin.
  - cbn [fmap list_fmap foldl].
    apply elem_of_cons in Hin as [->|Hin].
    + apply run_yielded_mono. now apply yield_yielded.
    + apply IH; auto. now apply tick_done_mono.
Qed.

Lemma init_inv : pool_inv apk_path st0 (Install.idle, st0).
Proof.
  constructor; cbn [fst snd Install.idle Install.running Install.done
                    Install.yielded].
  - reflexivity.
  - apply NoDup_nil_2.
  - intros i Hi. now apply elem_of_nil in Hi.
  - apply NoDup_nil_2.
  - intros i Hi. now apply elem_of_nil in Hi.
  - intros i [r Hr]. now rewrite lookup_empty in Hr.
  - exists []. rewrite app_nil_r. repeat split.
    intros i [r Hr]. now rewrite lookup_empty in Hr.
Qed.

(** When the block is left every submitted future has been received, each
    one once. *)
Lemma all_yielded (schedule : list Install.Tick) :
  let futures := seq 0 (length devices) in
  let ps := run_ticks (Install.idle, st0)
              (schedule ++ (Install.Start <$> futures)
               ++ (Install.Finish <$> futures)
               ++ (Install.Yield <$> futures)) in
  pool_inv apk_path st0 ps /\ Install.yielded ps.1 ≡ₚ futures.
Proof.
  intros futures ps.
  assert (Hinv : pool_inv apk_path st0 ps) by apply run_inv, init_inv.
  split; [exact Hinv|].
  apply NoDup_Permutation; [apply Hinv | apply NoDup_seq |].
  intros i. unfold futures. rewrite elem_of_seq. split.
  - intros Hi. apply (Install.inv_yielded _ _ _ _ _ Hinv) in Hi.
    apply (Install.inv_done _ _ _ _ _ Hinv) in Hi as [Hi _]. lia.
  - intros [_ Hi]. cbn in Hi. subst ps. rewrite !foldl_app.
    assert (Hin : i ∈ seq 0 (length devices)) by (apply elem_of_seq; lia).
    apply drain_yield; [exact Hin | exact Hi |].
    apply drain_finish; [exact Hin | exact Hi |].
    apply drain_start; [apply run_inv, init_inv | exact Hin | exact Hi].
Qed.

(** What one choice of the scheduler does to a pool in good order:
    nothing to what is done, received and logged; or it finishes the call
    of a waiting future, logging the bridge call; or it hands a done future
    to the loop, logging its outcome. *)
Lemma tick_effect (t : Install.Tick) (ps : Install.Pool * Install.State) :
  pool_inv apk_path st0 ps ->
  let ps' := tick apk_path t ps in
  (Install.done ps'.1 = Install.done ps.1 /\ ps'.2 = ps.2)
  \/ (exists i r,
        i < length devices /\ Install.done ps.1 !! i = None
        /\ Install.done ps'.1 = <[i := r]> (Install.done ps.1)
        /\ ps'.2 = logged ps.2
             [Install.Bridge (install_command (device_of i) apk_path)])
  \/ (exists i r,
        i < length devices /\ Install.done ps.1 !! i = Some r
        /\ Install.done ps'.1 = Install.done ps.1
        /\ ps'.2 = logged ps.2
             [Install.Outcome (device_of i)
                (Install.report (device_of i) r)]).
Proof.
  intros Hinv. destruct ps as [pool st]. cbn [fst snd] in *.
  destruct t as [i|i|i]; cbn [Install.tick].
  - left. destruct (Install.future_to_device environ !! i); [|auto].
    now destruct (_ || _ || _).
  - destruct (Install.future_to_device environ !! i) as [d|] eqn:Hfut;
      [|now left].
    case_bool_decide as Hrun; [|now left].
    apply future_device in Hfut as [Hlt Hdev].
    destruct (install_total d apk_path) as (line & Hret & Hcall).
    rewrite Hcall. right. left. exists i, (Ok line). cbn. rewrite Hdev.
    repeat split; [exact Hlt|].
    now apply (Install.inv_running _ _ _ _ _ Hinv).
  - destruct (Install.future_to_device environ !! i) as [d|] eqn:Hfut;
      [|now left].
    destruct (Install.done pool !! i) as [r|] eqn:Hdone; [|now left].
    case_bool_decide as Hin; [now left|].
    apply future_device in Hfut as [Hlt Hdev].
    right. right. exists i, r. cbn. rewrite Hdev. auto.
Qed.

Lemma bridges_app (evs evs' : list Install.Event) :
  Install.bridges (evs ++ evs') = Install.bridges evs ++ Install.bridges evs'.
Proof. apply omap_app. Qed.

(** The bridge calls logged so far are those of the done futures, one for
    each, in the order the calls were finished. *)
Lemma run_calls (ticks : list Install.Tick) :
  let ps := run_ticks (Install.idle, st0) ticks in
  exists fin evs,
    Install.trace ps.2 = Install.trace st0 ++ evs
    /\ NoDup fin
    /\ (forall i, i ∈ fin <-> is_Some (Install.done ps.1 !! i))
    /\ Install.bridges evs
       = (fun i => install_command (device_of i) apk_path) <$> reverse fin.
Proof.
  induction ticks as [|t ticks IH] using rev_ind; intros ps.
  - exists [], []. cbn. rewrite app_nil_r. repeat split.
    + apply NoDup_nil_2.
    + intros Hi. now apply elem_of_nil in Hi.
    + intros [r Hr]. now rewrite lookup_empty in Hr.
  - subst ps. rewrite foldl_snoc.
    set (ps := run_ticks (Install.idle, st0) ticks) in *.
    destruct IH as (fin & evs & Htr & Hnd & Hfin & Hbr).
    assert (Hinv : pool_inv apk_path st0 ps) by apply run_inv, init_inv.
    destruct (tick_effect t ps Hinv)
      as [[Hd Hs]|[(i & r & Hlt & Hnone & Hd & Hs)|(i & r & Hlt & Hsome & Hd & Hs)]].
    + exists fin, evs. rewrite Hs, Hd. auto.
    + exists (i :: fin), (evs ++ [Install.Bridge
                 (install_command (device_of i) apk_path)]).
      rewrite Hs, Hd. cbn [Install.logged Install.trace].
      rewrite Htr, app_assoc. repeat split.
      * apply NoDup_cons. split; [|exact Hnd].
        rewrite Hfin, Hnone. now intros [? ?].
      * rewrite elem_of_cons, lookup_insert_is_Some, Hfin.
        intros [->|H]; [now left|]. destruct (decide (i = i0)); auto.
      * rewrite elem_of_cons, lookup_insert_is_Some, Hfin.
        intros [->|[_ H]]; auto.
      * rewrite bridges_app, Hbr, reverse_cons, fmap_app. reflexivity.
    + exists fin, (evs ++ [Install.Outcome (device_of i)
                             (Install.report (device_of i) r)]).
      rewrite Hs, Hd. cbn [Install.logged Install.trace].
      rewrite Htr, app_assoc. repeat split; try apply Hfin; auto.
      rewrite bridges_app, Hbr. cbn. now rewrite app_nil_r.
Qed.

(** Every outcome logged so far comes after the bridge call of its
    device. *)
Lemma run_call_order (ticks : list Install.Tick) :
  let ps := run_ticks (Install.idle, st0) ticks in
  exists evs,
    Install.trace ps.2 = Install.trace st0 ++ evs /\ call_order apk_path evs.
Proof.
  induction ticks as [|t ticks IH] using rev_ind; intros ps.
  - exists []. cbn. rewrite app_nil_r. split; [reflexivity|].
    intros k d line Hk. now rewrite lookup_nil in Hk.
  - subst ps. rewrite foldl_snoc.
    set (ps := run_ticks (Install.idle, st0) ticks) in *.
    destruct IH as (evs & Htr & Hord).
    assert (Hinv : pool_inv apk_path st0 ps) by apply run_inv, init_inv.
    destruct (tick_effect t ps Hinv)
      as [[Hd Hs]|[(i & r & Hlt & Hnone & Hd & Hs)|(i & r & Hlt & Hsome & Hd & Hs)]].
    + exists evs. rewrite Hs. auto.
    + eexists. rewrite Hs. cbn [Install.logged Install.trace].
      rewrite Htr, <- app_assoc. split; [reflexivity|].
      intros k d line [[Hk Hev]|[_ [=]]]%lookup_snoc_Some.
      destruct (Hord k d line Hev) as (j & Hj & Hcall).
      exists j. split; [exact Hj|]. rewrite lookup_app_l by lia. exact Hcall.
    + eexists. rewrite Hs. cbn [Install.logged Install.trace].
      rewrite Htr, <- app_assoc. split; [reflexivity|].
      intros k d line [[Hk Hev]|[-> [= <- <-]]]%lookup_snoc_Some.
      * destruct (Hord k d line Hev) as (j & Hj & Hcall).
        exists j. split; [exact Hj|]. rewrite lookup_app_l by lia. exact Hcall.
      * destruct (Install.inv_trace _ _ _ _ _ Hinv) as (evs0 & Htr0 & _ & _ & Hbr).
        rewrite Htr in Htr0. apply app_inv_head in Htr0. subst evs0.
        specialize (Hbr i). rewrite Hsome in Hbr.
        destruct (proj1 (list_elem_of_lookup _ _) (Hbr (mk_is_Some _ _ eq_refl)))
          as (j & Hj).
        exists j. split; [now apply lookup_lt_Some in Hj|].
        rewrite lookup_app_l by now apply lookup_lt_Some in Hj. exact Hj.
Qed.

End Pool.

Lemma devices_of_futures :
  device_of <$> seq 0 (length devices) = devices.
Proof.
  apply list_eq. intros i. rewrite list_lookup_fmap.
  destruct (devices !! i) as [d|] eqn:Hd.
  - assert (Hlt := lookup_lt_Some _ _ _ Hd).
    rewrite (proj2 (lookup_seq 0 _ i i)) by (split; [reflexivity | exact Hlt]).
    cbn. unfold Install.device_of. now rewrite Hd.
  - apply lookup_ge_None in Hd.
    rewrite (proj2 (lookup_ge_None _ i)); [reflexivity|].
    now rewrite length_seq.
Qed.

(** What the pool adds to the trace: only pool events, among them the
    bridge call of every submitted future, and one outcome for each
    submitted future. *)
Lemma fan_out_trace (apk_path : string) (schedule : list Install.Tick)
  (st : Install.State) :
  exists evs,
    fan_out apk_path schedule st
      = (Ok tt, {| Install.fs := interference (Install.fs st);
                   Install.trace := Install.trace st ++ evs |})
    /\ forallb Install.is_pool_event evs = true
    /\ Install.outcomes evs
         ≡ₚ outcome_of apk_path <$> seq 0 (length devices)
    /\ forall i, i < length devices ->
         Install.Bridge (install_command (device_of i) apk_path) ∈ evs.
Proof.
  destruct (all_yielded apk_path st schedule) as [Hinv Hperm].
  cbn zeta in Hinv, Hperm. unfold Install.fan_out.
  destruct (foldl _ _ _) as [pool st'].
  destruct Hinv as [Hfs _ _ _ Hy Hd (evs & Htr & Hev & Hout & Hbr)].
  cbn [fst snd] in *. exists evs. rewrite Hfs, Htr. repeat split.
  - exact Hev.
  - rewrite Hout, reverse_Permutation, Hperm. reflexivity.
  - intros i Hi. apply Hbr, Hy. rewrite Hperm. apply elem_of_seq. lia.
Qed.

(** C1. Whatever the scheduler does, the pool reports exactly one outcome
    for each submitted device identifier: as many outcomes as devices, the
    devices of the outcomes are the submitted ones up to order, and the
    line of each outcome is what the install call of its device returns. *)
Theorem fleet_outcomes (apk_path : string) (schedule : list Install.Tick)
  (st : Install.State) :
  exists evs,
    Install.trace (fan_out apk_path schedule st).2 = Install.trace st ++ evs
    /\ length (Install.outcomes evs) = length devices
    /\ (Install.outcomes evs).*1 ≡ₚ devices
    /\ forall device_id line,
         (device_id, line) ∈ Install.outcomes evs ->
         forall st', (install_apk_on_device device_id apk_path st').1 = Ok line.
Proof.
  destruct (fan_out_trace apk_path schedule st) as (evs & Hrun & _ & Hout & _).
  exists evs. rewrite Hrun. split; [reflexivity|].
  split; [|split].
  - rewrite (Permutation_length Hout), length_fmap. apply length_seq.
  - rewrite Hout, <- list_fmap_compose. cbn. fold device_of.
    change (device_of <$> seq 0 (length devices) ≡ₚ devices).
    now rewrite devices_of_futures.
  - intros d line Hin st'. rewrite Hout in Hin.
    apply list_elem_of_fmap in Hin as (i & Heq & _).
    unfold Install.outcome_of in Heq. injection Heq as -> ->.
    destruct (install_total (device_of i) apk_path) as (l & Hret & Hrun').
    now rewrite Hrun', Hret.
Qed.

Lemma outcome_reported (apk_path : string) (evs : list Install.Event)
  (i : nat) (device_id : string) :
  Install.outcomes evs ≡ₚ outcome_of apk_path <$> seq 0 (length devices) ->
  devices !! i = Some device_id ->
  (device_id, Install.report device_id (returned device_id apk_path))
    ∈ Install.outcomes evs.
Proof.
  intros Hout Hd. rewrite Hout. apply list_elem_of_fmap. exists i. split.
  - unfold Install.outcome_of, Install.device_of. now rewrite Hd.
  - apply elem_of_seq. apply lookup_lt_Some in Hd. lia.
Qed.

(** C2. When the bridge call of one device raises, that device gets the
    Error line made from the exception and the batch goes on to its end:
    every other device whose bridge call completes has its call made and
    gets the Success or Failed line of its own call, whatever the
    scheduler does. *)
Theorem failure_isolation (apk_path : string) (schedule : list Install.Tick)
  (st : Install.State) (i : nat) (device_id : string) (e : Install.exn) :
  devices !! i = Some device_id ->
  shell (install_command device_id apk_path) = Raise e ->
  exists evs,
    fan_out apk_path schedule st
      = (Ok tt, {| Install.fs := interference (Install.fs st);
                   Install.trace := Install.trace st ++ evs |})
    /\ (device_id, "[" +:+ device_id +:+ "] Error: " +:+ Install.str e)
         ∈ Install.outcomes evs
    /\ forall j other cp,
         devices !! j = Some other ->
         shell (install_command other apk_path) = Ok cp ->
         Install.Bridge (install_command other apk_path) ∈ evs
         /\ (other,
             if (Install.returncode cp =? 0)%Z
                || Py.contains "Success" (Install.stdout cp)
             then "[" +:+ other +:+ "] Success"
             else "[" +:+ other +:+ "] Failed: " +:+
                  (if Py.is_empty (Install.stderr cp) then Install.stdout cp
                   else Install.stderr cp))
            ∈ Install.outcomes evs.
Proof.
  intros Hd He.
  destruct (fan_out_trace apk_path schedule st) as (evs & Hrun & _ & Hout & Hbr).
  exists evs. split; [exact Hrun|]. split.
  - pose proof (outcome_reported apk_path evs i device_id Hout Hd) as H.
    unfold Install.returned in H.
    now rewrite (install_raised _ _ e) in H.
  - intros j other cp Hj Hcp. split.
    + specialize (Hbr j (lookup_lt_Some _ _ _ Hj)).
      unfold Install.device_of in Hbr. now rewrite Hj in Hbr.
    + pose proof (outcome_reported apk_path evs j other Hout Hj) as H.
      unfold Install.returned in H.
      now rewrite (install_completed _ _ cp) in H.
Qed.

Lemma find_asset_first (l : list Install.Asset) :
  (exists a, a ∈ l /\ Install.is_lite_apk (Install.name a) = true) ->
  exists before a after,
    l = before ++ a :: after
    /\ Forall (fun b => Install.is_lite_apk (Install.name b) = false) before
    /\ Install.is_lite_apk (Install.name a) = true
    /\ Install.find_asset l
       = Some (Install.browser_download_url a, Install.name a).
Proof.
  induction l as [|b l IH]; intros (a & Hin & Ha).
  - now apply elem_of_nil in Hin.
  - destruct (Install.is_lite_apk (Install.name b)) eqn:Hb.
    + exists [], b, l. cbn. rewrite Hb. auto.
    + apply elem_of_cons in Hin as [->|Hin]; [congruence|].
      destruct IH as (before & a' & after & -> & Hbefore & Ha' & Hfind);
        [eauto|].
      exists (b :: before), a', after. cbn [Install.find_asset].
      rewrite Hb. repeat split; auto.
Qed.

Lemma find_asset_none (l : list Install.Asset) :
  Forall (fun a => Install.is_lite_apk (Install.name a) = false) l ->
  Install.find_asset l = None.
Proof.
  induction 1 as [|a l Ha _ IH]; [reflexivity|].
  cbn. now rewrite Ha.
Qed.

Lemma get_latest_found (release : Install.Release) found (st : Install.State) :
  urlopen_json Install.GITHUB_API_URL = Ok release ->
  Install.find_asset (default [] (Install.assets release)) = Some found ->
  get_latest_acurast_lite_apk st
  = (Ok found, logged st [Install.Fetch Install.GITHUB_API_URL]).
Proof.
  intros Hu Hf. unfold Install.get_latest_acurast_lite_apk, Install.try_except,
    Install.bind, Install.emit, Install.lift. cbn. now rewrite Hu, Hf.
Qed.

(** C5. When some asset of the release passes the name test, resolution
    returns the first such asset in listing order, by its download URL and
    name; over the names app-v1.apk, processor-lite-v2.apk, other.txt it is
    the second asset. *)
Theorem resolves_first_match (release : Install.Release)
  (l : list Install.Asset) (st : Install.State) :
  urlopen_json Install.GITHUB_API_URL = Ok release ->
  Install.assets release = Some l ->
  (exists a, a ∈ l /\ Install.is_lite_apk (Install.name a) = true) ->
  (exists before a after,
     l = before ++ a :: after
     /\ Forall (fun b => Install.is_lite_apk (Install.name b) = false) before
     /\ Install.is_lite_apk (Install.name a) = true
     /\ get_latest_acurast_lite_apk st
        = (Ok (Install.browser_download_url a, Install.name a),
           logged st [Install.Fetch Install.GITHUB_API_URL]))
  /\ forall u1 u2 u3,
       Install.find_asset
         [ {| Install.name := "app-v1.apk"; Install.browser_download_url := u1 |};
           {| Install.name := "processor-lite-v2.apk";
              Install.browser_download_url := u2 |};
           {| Install.name := "other.txt"; Install.browser_download_url := u3 |} ]
       = Some (u2, "processor-lite-v2.apk").
Proof.
  intros Hu Hl Hex. split; [|reflexivity].
  destruct (find_asset_first l Hex) as (before & a & after & ? & ? & ? & Hf).
  exists before, a, after. repeat split; auto.
  apply (get_latest_found release); [exact Hu|]. now rewrite Hl.
Qed.

(** C6. When the release parses and no asset passes the name test,
    resolution raises the exception that says so, and the run ends there:
    with devices selected the only events are the fetch and the failure
    report, so that nothing is downloaded and no bridge call is made. *)
Theorem no_match_is_fatal (release : Install.Release)
  (schedule : list Install.Tick) (st : Install.State) :
  urlopen_json Install.GITHUB_API_URL = Ok release ->
  Forall (fun a => Install.is_lite_apk (Install.name a) = false)
         (default [] (Install.assets release)) ->
  let e := Install.Exception
             "Could not find processor-lite APK in latest release" in
  get_latest_acurast_lite_apk st
    = (Raise e, logged st [Install.Fetch Install.GITHUB_API_URL])
  /\ main schedule st
     = (Ok tt,
        match devices with
        | [] => st
        | _ :: _ => logged st [Install.Fetch Install.GITHUB_API_URL;
                               Install.ScriptFailed e]
        end).
Proof.
  intros Hu Hall e. apply find_asset_none in Hall.
  assert (Hget : get_latest_acurast_lite_apk st
                 = (Raise e, logged st [Install.Fetch Install.GITHUB_API_URL])).
  { unfold Install.get_latest_acurast_lite_apk, Install.try_except,
      Install.bind, Install.emit, Install.lift. cbn. now rewrite Hu, Hall. }
  split; [exact Hget|].
  unfold Install.main. destruct devices; [reflexivity|].
  unfold Install.try_except, Install.bind at 1. rewrite Hget.
  unfold Install.emit, Install.logged. cbn. now rewrite <- app_assoc.
Qed.

(** C9. In a run that reaches the pool, the events are the fetch, the
    download, the events of the pool (the bridge call and the outcome of
    every device among them), then one existence test of the downloaded
    file, followed by its removal only when the file is still there; the
    run returns normally in both cases. *)
Theorem cleanup_once (schedule : list Install.Tick) (st : Install.State)
  (release : Install.Release) (apk_url apk_name : string) (size : nat) :
  devices <> [] ->
  urlopen_json Install.GITHUB_API_URL = Ok release ->
  Install.find_asset (default [] (Install.assets release))
    = Some (apk_url, apk_name) ->
  urlretrieve apk_url (path_join gettempdir apk_name) = Ok size ->
  let apk_path := path_join gettempdir apk_name in
  let files := interference (<[apk_path := size]> (Install.fs st)) in
  exists evs,
    main schedule st
      = (Ok tt,
         {| Install.fs := delete apk_path files;
            Install.trace :=
              Install.trace st
              ++ [Install.Fetch Install.GITHUB_API_URL;
                  Install.Download apk_url apk_path]
              ++ evs
              ++ Install.Exists apk_path
                 :: (if bool_decide (is_Some (files !! apk_path))
                     then [Install.Unlink apk_path] else []) |})
    /\ forallb Install.is_pool_event evs = true
    /\ forall device_id, device_id ∈ devices ->
         Install.Bridge (install_command device_id apk_path) ∈ evs
         /\ exists line, (device_id, line) ∈ Install.outcomes evs.
Proof.
  intros Hne Hu Hf Hr apk_path files.
  set (st1 := logged st [Install.Fetch Install.GITHUB_API_URL]).
  set (st2 := {| Install.fs := <[apk_path := size]> (Install.fs st);
                 Install.trace := Install.trace st1
                                  ++ [Install.Download apk_url apk_path] |}).
  destruct (fan_out_trace apk_path schedule st2) as (evs & Hrun & Hev & Hout & Hbr).
  exists evs. split; [|split; [exact Hev|]].
  - unfold Install.main. destruct devices as [|d ds] eqn:Hd; [congruence|].
    unfold Install.try_except, Install.bind at 1.
    rewrite (get_latest_found release (apk_url, apk_name) st Hu Hf).
    fold st1. unfold Install.bind at 1.
    assert (Hdl : Install.download_apk urlretrieve gettempdir path_join
                    no_such_file apk_url apk_name st1 = (Ok apk_path, st2)).
    { unfold Install.download_apk, Install.try_except, Install.bind,
        Install.url_retrieve, Install.os_path_getsize.
      rewrite Hr. cbn. now rewrite lookup_insert_eq. }
    rewrite Hdl. unfold Install.bind at 1. rewrite Hrun.
    unfold Install.bind at 1, Install.cleanup, Install.bind at 1,
      Install.os_path_exists.
    subst st2 st1. unfold Install.logged. cbn [Install.fs Install.trace].
    fold files. case_bool_decide as Hfound.
    + unfold Install.os_unlink. cbn [Install.fs Install.trace].
      destruct Hfound as [n Hn]. rewrite Hn. cbn.
      do 2 f_equal. rewrite <- !app_assoc. reflexivity.
    + apply eq_None_not_Some in Hfound. cbn.
      rewrite (delete_id _ _ Hfound).
      do 2 f_equal. rewrite <- !app_assoc. reflexivity.
  - intros d Hin. apply list_elem_of_lookup in Hin as [i Hi].
    split.
    + specialize (Hbr i (lookup_lt_Some _ _ _ Hi)).
      unfold Install.device_of in Hbr. now rewrite Hi in Hbr.
    + eexists. exact (outcome_reported apk_path evs i d Hout Hi).
Qed.

(** X4. With no [devices] variable, or one of white space only, the
    install flow returns at once: nothing is fetched, downloaded, installed
    or removed. *)
Theorem no_devices_no_work (schedule : list Install.Tick) (st : Install.State) :
  Py.forall_chars Py.isspace (default EmptyString (environ !! "devices"))
    = true ->
  main schedule st = (Ok tt, st).
Proof.
  intros H. unfold Install.main, Install.devices, Py.split.
  now rewrite (proj2 (split_from_nil_iff EmptyString _) (conj eq_refl H)).
Qed.

(** X5. When the release cannot be fetched or parsed, the run ends with
    the failure report of that exception: nothing is downloaded, no bridge
    call is made and no file is touched. *)
Theorem fetch_failure_is_fatal (schedule : list Install.Tick)
  (st : Install.State) (e : Install.exn) :
  devices <> [] ->
  urlopen_json Install.GITHUB_API_URL = Raise e ->
  main schedule st
  = (Ok tt, logged st [Install.Fetch Install.GITHUB_API_URL;
                       Install.ScriptFailed e]).
Proof.
  intros Hne Hu. unfold Install.main.
  destruct devices as [|d ds]; [congruence|].
  unfold Install.try_except, Install.bind at 1,
    Install.get_latest_acurast_lite_apk, Install.try_except, Install.bind,
    Install.emit, Install.lift, Install.raise, Install.logged.
  cbn. rewrite Hu. cbn. now rewrite <- app_assoc.
Qed.

(** X6. When the download fails, the run ends with the failure report of
    that exception after the fetch and the download attempt: no bridge
    call is made and no removal is tried, so that a partial file the broken
    download left at the path stays there. *)
Theorem download_failure_is_fatal (schedule : list Install.Tick)
  (st : Install.State) (release : Install.Release)
  (apk_url apk_name : string) (e : Install.exn) (partial : option nat) :
  devices <> [] ->
  urlopen_json Install.GITHUB_API_URL = Ok release ->
  Install.find_asset (default [] (Install.assets release))
    = Some (apk_url, apk_name) ->
  urlretrieve apk_url (path_join gettempdir apk_name) = Raise (e, partial) ->
  main schedule st
  = (Ok tt,
     {| Install.fs :=
          match partial with
          | Some size =>
              <[path_join gettempdir apk_name := size]> (Install.fs st)
          | None => Install.fs st
          end;
        Install.trace :=
          Install.trace st
          ++ [Install.Fetch Install.GITHUB_API_URL;
              Install.Download apk_url (path_join gettempdir apk_name);
              Install.ScriptFailed e] |}).
Proof.
  intros Hne Hu Hf Hr. unfold Install.main.
  destruct devices as [|d ds]; [congruence|].
  unfold Install.try_except at 1, Install.bind at 1.
  rewrite (get_latest_found release (apk_url, apk_name) st Hu Hf).
  unfold Install.bind at 1, Install.download_apk, Install.try_except,
    Install.bind, Install.url_retrieve, Install.raise, Install.emit,
    Install.logged.
  rewrite Hr. cbn. now rewrite <- !app_assoc.
Qed.

(** X7. Whatever the scheduler does, the pool makes exactly one bridge
    call for each submitted device, the install command of that device and
    of the downloaded file: no device is called twice and none is left
    out. *)
Theorem one_call_per_device (apk_path : string) (schedule : list Install.Tick)
  (st : Install.State) :
  exists evs,
    Install.trace (fan_out apk_path schedule st).2 = Install.trace st ++ evs
    /\ Install.bridges evs
       ≡ₚ (fun device_id => install_command device_id apk_path) <$> devices.
Proof.
  destruct (all_yielded apk_path st schedule) as [Hinv Hperm].
  destruct (run_calls apk_path st
              (schedule ++ (Install.Start <$> seq 0 (length devices))
               ++ (Install.Finish <$> seq 0 (length devices))
               ++ (Install.Yield <$> seq 0 (length devices))))
    as (fin & evs & Htr & Hnd & Hfin & Hbr).
  cbn zeta in Hinv, Hperm, Htr, Hfin. unfold Install.fan_out.
  destruct (foldl _ _ _) as [pool st']. cbn [fst snd] in *.
  exists evs. split; [exact Htr|].
  assert (Hall : fin ≡ₚ seq 0 (length devices)).
  { apply NoDup_Permutation; [exact Hnd | apply NoDup_seq |].
    intros i. rewrite Hfin, elem_of_seq. split.
    - intros Hi. apply (Install.inv_done _ _ _ _ _ Hinv) in Hi as [Hi _].
      cbn in Hi. lia.
    - intros [_ Hi]. apply (Install.inv_yielded _ _ _ _ _ Hinv).
      cbn [fst]. rewrite Hperm. apply elem_of_seq. lia. }
  rewrite Hbr, reverse_Permutation, Hall.
  rewrite <- devices_of_futures at 2. now rewrite <- list_fmap_compose.
Qed.

(** X8. Whatever the scheduler does, an outcome is reported only after the
    bridge call of its device was made: in the events of the pool every
    outcome has the install command of its device before it. *)
Theorem outcome_after_call (apk_path : string) (schedule : list Install.Tick)
  (st : Install.State) :
  exists evs,
    Install.trace (fan_out apk_path schedule st).2 = Install.trace st ++ evs
    /\ call_order apk_path evs.
Proof.
  destruct (run_call_order apk_path st
              (schedule ++ (Install.Start <$> seq 0 (length devices))
               ++ (Install.Finish <$> seq 0 (length devices))
               ++ (Install.Yield <$> seq 0 (length devices))))
    as (evs & Htr & Hord).
  cbn zeta in Htr. unfold Install.fan_out.
  destruct (foldl _ _ _) as [pool st']. cbn [fst snd] in *.
  exists evs. auto.
Qed.

(** X9. The loop over the assets fails exactly when no asset passes the
    name test, and what it returns is the name and the URL of an asset of
    the list whose name passes the test. *)
Theorem find_asset_sound (l : list Install.Asset) :
  (Install.find_asset l = None
   <-> Forall (fun a => Install.is_lite_apk (Install.name a) = false) l)
  /\ forall apk_url apk_name,
       Install.find_asset l = Some (apk_url, apk_name) ->
       Install.is_lite_apk apk_name = true
       /\ {| Install.name := apk_name;
             Install.browser_download_url := apk_url |} ∈ l.
Proof.
  induction l as [|a l [IHn IHs]].
  - split; [split; [intros _; apply Forall_nil_2 | reflexivity]|].
    intros ? ? [=].
  - cbn [Install.find_asset].
    destruct (Install.is_lite_apk (Install.name a)) eqn:Ha.
    + split.
      * split; [discriminate|].
        intros H. apply Forall_cons in H as [H _]. congruence.
      * intros u n [= <- <-]. split; [exact Ha|].
        destruct a. apply list_elem_of_here.
    + split.
      * rewrite IHn. split.
        -- intros H. apply Forall_cons. auto.
        -- intros H. now apply Forall_cons in H as [_ H].
      * intros u n H. destruct (IHs u n H) as [Hn Hin].
        split; [exact Hn|]. now apply list_elem_of_further.
Qed.

End Fleet.

(** ** Bridge invocations *)

Section Invoker.

Context {World : Type}.
Variable spawn : list string -> World -> SetupSsh.Spawned * World.
Variable os : string -> SetupSsh.Spawned.

(** C8, as the code has it. A bridge process that runs, exits and whose
    output decodes as text is handed back with its exit code and its
    output whatever the code, by the invocation of the install flow and by
    [run] called with [check] off; [run] with [check] on, its default,
    hands back the process only when the code is zero and raises
    CalledProcessError otherwise. *)
Theorem invoker_returns_unless_checked
  (args : list string) (capture : bool) (st : SetupSsh.State World)
  (code : Z) (out err : string) (w : World)
  (command : string) (icode : Z) (iout ierr : string) (ist : Install.State) :
  spawn args (SetupSsh.world World st) = (SetupSsh.Exited code out err, w) ->
  os command = SetupSsh.Exited icode iout ierr ->
  let st' := {| SetupSsh.world := w;
                SetupSsh.log := SetupSsh.log World st ++ [SetupSsh.Spawn args] |} in
  let handed := {| SetupSsh.returncode := code;
                   SetupSsh.stdout := if capture then Some out else None;
                   SetupSsh.stderr := if capture then Some err else None |} in
  SetupSsh.run World spawn args false capture st = (Ok handed, st')
  /\ SetupSsh.run World spawn args true capture st
     = (if (code =? 0)%Z then Ok handed
        else Raise (SetupSsh.CalledProcessError code args), st')
  /\ Install.subprocess_run (Install.run_shell os) command ist
     = (Ok {| Install.returncode := icode; Install.stdout := iout;
              Install.stderr := ierr |},
        Install.logged ist [Install.Bridge command]).
Proof.
  intros Hs Hc st' handed. unfold SetupSsh.run. rewrite Hs. cbn.
  repeat split.
  - now destruct (code =? 0)%Z.
  - unfold Install.subprocess_run, Install.bind, Install.emit, Install.lift,
      Install.run_shell. cbn. now rewrite Hc.
Qed.

End Invoker.

(** ** The theorems at work on the sample hosts *)

(** A run over the three sample devices: the third finishes first, the
    second raises, and the download is removed at the end. *)
Example sample_run :
  Install.main Sample.environ Sample.urlopen_json Sample.urlretrieve
    Sample.shell Sample.gettempdir Sample.path_join Sample.no_such_file
    Sample.quiet Sample.schedule Sample.start
  = (Ok tt,
     {| Install.fs := ∅;
        Install.trace :=
          [Install.Fetch Install.GITHUB_API_URL;
           Install.Download "https://host/lite-v2.apk" Sample.apk_path;
           Install.Bridge
             (Install.install_command Sample.environ "D3" Sample.apk_path);
           Install.Outcome "D3" "[D3] Failed: INSTALL_FAILED";
           Install.Bridge
             (Install.install_command Sample.environ "D1" Sample.apk_path);
           Install.Bridge
             (Install.install_command Sample.environ "D2" Sample.apk_path);
           Install.Outcome "D1" "[D1] Success";
           Install.Outcome "D2" "[D2] Error: device offline";
           Install.Exists Sample.apk_path;
           Install.Unlink Sample.apk_path] |}).
Proof. vm_compute. reflexivity. Qed.

Lemma failure_isolation_witness :
  Install.devices Sample.environ !! 1 = Some "D2"
  /\ Sample.shell (Install.install_command Sample.environ "D2" Sample.apk_path)
     = Raise (Install.Exception "device offline")
  /\ exists evs,
       Install.fan_out Sample.environ Sample.shell Sample.quiet Sample.apk_path
         Sample.schedule Sample.start
       = (Ok tt, {| Install.fs := ∅; Install.trace := evs |})
       /\ ("D2", "[D2] Error: device offline") ∈ Install.outcomes evs
       /\ ("D1", "[D1] Success") ∈ Install.outcomes evs
       /\ ("D3", "[D3] Failed: INSTALL_FAILED") ∈ Install.outcomes evs.
Proof.
  split; [reflexivity|]. split; [reflexivity|].
  destruct (failure_isolation Sample.environ Sample.shell Sample.quiet
              Sample.apk_path Sample.schedule Sample.start 1 "D2"
              (Install.Exception "device offline") eq_refl eq_refl)
    as (evs & Hrun & Herr & Hothers).
  exists evs. split; [exact Hrun|]. split; [exact Herr|]. split.
  - exact (proj2 (Hothers 0 "D1"
             {| Install.returncode := 0; Install.stdout := "Success";
                Install.stderr := EmptyString |} eq_refl eq_refl)).
  - exact (proj2 (Hothers 2 "D3" Sample.failed_install eq_refl eq_refl)).
Defined.

Lemma install_classification_witness :
  Sample.shell (Install.install_command Sample.environ "D3" Sample.apk_path)
    = Ok Sample.failed_install
  /\ ((Install.install_apk_on_device Sample.environ Sample.shell "D3"
         Sample.apk_path Sample.start).1 = Ok "[D3] Success"
      <-> (1 = 0 \/ Py.contains "Success" EmptyString = true)%Z)
  /\ (~ (1 = 0 \/ Py.contains "Success" EmptyString = true)%Z ->
      (Install.install_apk_on_device Sample.environ Sample.shell "D3"
         Sample.apk_path Sample.start).1
      = Ok "[D3] Failed: INSTALL_FAILED").
Proof.
  split; [reflexivity|].
  exact (install_classification Sample.environ Sample.shell "D3"
           Sample.apk_path Sample.failed_install Sample.start eq_refl).
Defined.

Lemma resolves_first_match_witness :
  exists l,
    Sample.urlopen_json Install.GITHUB_API_URL = Ok Sample.release
    /\ Install.assets Sample.release = Some l
    /\ (exists a, a ∈ l /\ Install.is_lite_apk (Install.name a) = true)
    /\ exists before a after,
         l = before ++ a :: after
         /\ Forall (fun b => Install.is_lite_apk (Install.name b) = false) before
         /\ Install.is_lite_apk (Install.name a) = true
         /\ Install.get_latest_acurast_lite_apk Sample.urlopen_json Sample.start
            = (Ok (Install.browser_download_url a, Install.name a),
               Install.logged Sample.start
                 [Install.Fetch Install.GITHUB_API_URL]).
Proof.
  eexists. split; [reflexivity|]. split; [reflexivity|].
  assert (Hex : exists a : Install.Asset,
            a ∈ default [] (Install.assets Sample.release)
            /\ Install.is_lite_apk (Install.name a) = true).
  { exists {| Install.name := "processor-lite-v2.apk";
              Install.browser_download_url := "https://host/lite-v2.apk" |}.
    split; [|reflexivity].
    apply list_elem_of_further, list_elem_of_here. }
  split; [exact Hex|].
  exact (proj1 (resolves_first_match Sample.urlopen_json Sample.release _
                  Sample.start eq_refl eq_refl Hex)).
Defined.

Lemma no_match_is_fatal_witness :
  Sample.urlopen_bare Install.GITHUB_API_URL = Ok Sample.bare_release
  /\ Forall (fun a => Install.is_lite_apk (Install.name a) = false)
       (default [] (Install.assets Sample.bare_release))
  /\ Install.get_latest_acurast_lite_apk Sample.urlopen_bare Sample.start
     = (Raise Sample.not_found,
        Install.logged Sample.start [Install.Fetch Install.GITHUB_API_URL])
  /\ Install.main Sample.environ Sample.urlopen_bare Sample.urlretrieve
       Sample.shell Sample.gettempdir Sample.path_join Sample.no_such_file
       Sample.quiet Sample.schedule Sample.start
     = (Ok tt,
        Install.logged Sample.start
          [Install.Fetch Install.GITHUB_API_URL;
           Install.ScriptFailed Sample.not_found]).
Proof.
  assert (Hall : Forall (fun a => Install.is_lite_apk (Install.name a) = false)
                   (default [] (Install.assets Sample.bare_release))).
  { apply Forall_cons. split; [reflexivity | apply Forall_nil_2]. }
  split; [reflexivity|]. split; [exact Hall|].
  exact (no_match_is_fatal Sample.environ Sample.urlopen_bare
           Sample.urlretrieve Sample.shell Sample.gettempdir Sample.path_join
           Sample.no_such_file Sample.quiet Sample.bare_release
           Sample.schedule Sample.start eq_refl Hall).
Defined.

Lemma cleanup_once_witness :
  Install.devices Sample.environ <> []
  /\ Sample.urlopen_json Install.GITHUB_API_URL = Ok Sample.release
  /\ Install.find_asset (default [] (Install.assets Sample.release))
     = Some ("https://host/lite-v2.apk", "processor-lite-v2.apk")
  /\ Sample.urlretrieve "https://host/lite-v2.apk" Sample.apk_path = Ok 1024
  /\ exists evs,
       Install.main Sample.environ Sample.urlopen_json Sample.urlretrieve
         Sample.shell Sample.gettempdir Sample.path_join Sample.no_such_file
         Sample.wiped Sample.schedule Sample.start
       = (Ok tt,
          {| Install.fs := ∅;
             Install.trace :=
               [Install.Fetch Install.GITHUB_API_URL;
                Install.Download "https://host/lite-v2.apk" Sample.apk_path]
               ++ evs ++ [Install.Exists Sample.apk_path] |})
       /\ forallb Install.is_pool_event evs = true
       /\ forall device_id, device_id ∈ Install.devices Sample.environ ->
            Install.Bridge
              (Install.install_command Sample.environ device_id Sample.apk_path)
              ∈ evs
            /\ exists line, (device_id, line) ∈ Install.outcomes evs.
Proof.
  assert (Hne : Install.devices Sample.environ <> []).
  { intros H. vm_compute in H. discriminate H. }
  split; [exact Hne|]. do 3 (split; [reflexivity|]).
  exact (cleanup_once Sample.environ Sample.urlopen_json Sample.urlretrieve
           Sample.shell Sample.gettempdir Sample.path_join Sample.no_such_file
           Sample.wiped Sample.schedule Sample.start Sample.release
           "https://host/lite-v2.apk" "processor-lite-v2.apk" 1024
           Hne eq_refl eq_refl eq_refl).
Defined.

Lemma provisioning_exit_status_witness :
  (SetupSsh.main unit Sample.spawn_termux Sample.mktemp ∅
     (SetupSsh.PyStr "secret") Sample.boot = (Ok 2%Z, Sample.boot))
  /\ (SetupSsh.main unit Sample.spawn_termux Sample.mktemp Sample.environ
        (SetupSsh.PyStr "  ") Sample.boot = (Ok 2%Z, Sample.boot))
  /\ (SetupSsh.main unit Sample.spawn_bare Sample.mktemp Sample.environ
        (SetupSsh.PyStr "secret") Sample.boot
      = (Ok 3%Z,
         {| SetupSsh.world := tt;
            SetupSsh.log :=
              [SetupSsh.Spawn ["adb"; "-s"; "D1"; "shell"; "pm"; "list";
                               "packages"; "com.termux"]] |}))
  /\ (exists device_id rest code out err w,
        SetupSsh.DEVICES Sample.environ = device_id :: rest
        /\ Py.forall_chars Py.isspace "secret" = false
        /\ Sample.spawn_termux
             [SetupSsh.ADB Sample.environ; "-s"; device_id; "shell"; "pm";
              "list"; "packages"; "com.termux"] tt
           = (SetupSsh.Exited code out err, w)
        /\ Py.contains "com.termux" out = true).
Proof.
  split; [|split; [|split]].
  - apply (proj1 (provisioning_exit_status Sample.spawn_termux Sample.mktemp
                    ∅ "secret" Sample.boot)).
    left. reflexivity.
  - apply (proj1 (provisioning_exit_status Sample.spawn_termux Sample.mktemp
                    Sample.environ "  " Sample.boot)).
    right. reflexivity.
  - exact (proj1 (proj2 (provisioning_exit_status Sample.spawn_bare
                           Sample.mktemp Sample.environ "secret" Sample.boot))
             "D1" ["D2"; "D3"] 0%Z EmptyString EmptyString tt
             eq_refl eq_refl eq_refl eq_refl).
  - refine (proj1 (proj2 (proj2 (provisioning_exit_status Sample.spawn_termux
                                   Sample.mktemp Sample.environ "secret"
                                   Sample.boot))
                     0%Z _ _) eq_refl).
    vm_compute. reflexivity.
Defined.

Lemma only_first_device_witness :
  Py.split "D1 D2" = "D1" :: ["D2"]
  /\ Py.split "D1 D3 D4" = "D1" :: ["D3"; "D4"]
  /\ SetupSsh.main unit Sample.spawn_termux Sample.mktemp
       (<["devices" := "D1 D2"]> ∅) (SetupSsh.PyStr "secret") Sample.boot
     = SetupSsh.main unit Sample.spawn_termux Sample.mktemp
         (<["devices" := "D1 D3 D4"]> ∅) (SetupSsh.PyStr "secret") Sample.boot
  /\ exists evs,
       SetupSsh.log unit
         (SetupSsh.main unit Sample.spawn_termux Sample.mktemp
            (<["devices" := "D1 D2"]> ∅) (SetupSsh.PyStr "secret")
            Sample.boot).2
       = SetupSsh.log unit Sample.boot ++ evs
       /\ forallb (SetupSsh.targets (SetupSsh.ADB ∅) "D1") evs = true.
Proof.
  split; [reflexivity|]. split; [reflexivity|].
  exact (only_first_device Sample.spawn_termux Sample.mktemp ∅
           "D1 D2" "D1 D3 D4" "D1" ["D2"] ["D3"; "D4"]
           (SetupSsh.PyStr "secret") Sample.boot eq_refl eq_refl).
Defined.

(** C8, as the spec states it, fails: the bridge exits with status 1 on the
    push of the script and [run], called as [main] calls it for the push
    (check left on), raises instead of handing the process back. *)
Lemma push_refused_raises :
  Sample.spawn_refused Sample.push_args tt
    = (SetupSsh.Exited 1 EmptyString "adb: error: device offline", tt)
  /\ SetupSsh.run unit Sample.spawn_refused Sample.push_args true true
       Sample.boot
     = (Raise (SetupSsh.CalledProcessError 1 Sample.push_args),
        {| SetupSsh.world := tt;
           SetupSsh.log := [SetupSsh.Spawn Sample.push_args] |})
  /\ ~ exists cp st',
         SetupSsh.run unit Sample.spawn_refused Sample.push_args true true
           Sample.boot = (Ok cp, st').
Proof.
  split; [reflexivity|]. split; [reflexivity|].
  intros (cp & st' & H). discriminate H.
Qed.

Lemma invoker_returns_unless_checked_witness :
  Sample.spawn_refused Sample.push_args tt
    = (SetupSsh.Exited 1 EmptyString "adb: error: device offline", tt)
  /\ Sample.os_refused
       (Install.install_command Sample.environ "D3" Sample.apk_path)
     = SetupSsh.Exited 1 EmptyString "INSTALL_FAILED"
  /\ SetupSsh.run unit Sample.spawn_refused Sample.push_args false true
       Sample.boot
     = (Ok {| SetupSsh.returncode := 1;
              SetupSsh.stdout := Some EmptyString;
              SetupSsh.stderr := Some "adb: error: device offline" |},
        {| SetupSsh.world := tt;
           SetupSsh.log := [SetupSsh.Spawn Sample.push_args] |})
  /\ SetupSsh.run unit Sample.spawn_refused Sample.push_args true true
       Sample.boot
     = (Raise (SetupSsh.CalledProcessError 1 Sample.push_args),
        {| SetupSsh.world := tt;
           SetupSsh.log := [SetupSsh.Spawn Sample.push_args] |})
  /\ Install.subprocess_run (Install.run_shell Sample.os_refused)
       (Install.install_command Sample.environ "D3" Sample.apk_path)
       Sample.start
     = (Ok Sample.failed_install,
        Install.logged Sample.start
          [Install.Bridge
             (Install.install_command Sample.environ "D3" Sample.apk_path)]).
Proof.
  split; [reflexivity|]. split; [reflexivity|].
  exact (invoker_returns_unless_checked Sample.spawn_refused Sample.os_refused
           Sample.push_args true Sample.boot 1%Z EmptyString
           "adb: error: device offline" tt
           (Install.install_command Sample.environ "D3" Sample.apk_path)
           1%Z EmptyString "INSTALL_FAILED" Sample.start eq_refl eq_refl).
Defined.

Lemma quote_round_trip_witness :
  Py.no_nul Sample.quoted_secret = true
  /\ exists evs,
       SetupSsh.log unit
         (SetupSsh.main unit Sample.spawn_termux Sample.mktemp Sample.environ
            (SetupSsh.PyStr Sample.quoted_secret) Sample.boot).2
       = SetupSsh.log unit Sample.boot ++ evs
       /\ (forall path content,
             SetupSsh.WriteTemp path content ∈ evs ->
             content
             = SetupSsh.termux_bash_script (Py.quote Sample.quoted_secret)
             /\ Sh.assignment
                  (Sh.skip_line (Sh.skip_line (Sh.skip_line content)))
                = Some ("TERMUX_SSH_PASSWORD", Sample.quoted_secret,
                        SetupSsh.script_tail))
       /\ ((SetupSsh.main unit Sample.spawn_termux Sample.mktemp
              Sample.environ (SetupSsh.PyStr Sample.quoted_secret)
              Sample.boot).1 = Ok 0%Z ->
           exists path content, SetupSsh.WriteTemp path content ∈ evs).
Proof.
  split; [reflexivity|].
  exact (quote_round_trip Sample.spawn_termux Sample.mktemp Sample.environ
           Sample.quoted_secret Sample.boot eq_refl).
Defined.

(** C3, as the spec states it, fails for a password with a NUL character:
    [main] accepts it and writes the script with the quoted password, and
    the shell that reads the script drops the NUL, so that the variable
    holds another string. *)
Lemma nul_is_dropped :
  SetupSsh.WriteTemp "/tmp/tmpk3x9.sh"
    (SetupSsh.termux_bash_script (Py.quote Sample.nul_secret))
    ∈ SetupSsh.log unit
        (SetupSsh.main unit Sample.spawn_termux Sample.mktemp Sample.environ
           (SetupSsh.PyStr Sample.nul_secret) Sample.boot).2
  /\ Sh.assignment
       (Sh.skip_line (Sh.skip_line (Sh.skip_line
          (SetupSsh.termux_bash_script (Py.quote Sample.nul_secret)))))
     = Some ("TERMUX_SSH_PASSWORD", "ab", SetupSsh.script_tail)
  /\ "ab" <> Sample.nul_secret.
Proof.
  split; [|split].
  - apply list_elem_of_further, list_elem_of_here.
  - vm_compute. reflexivity.
  - discriminate.
Qed.

Lemma split_join_witness :
  Forall (fun x => Py.is_token x = true) ["D1"; "emulator-5554"]
  /\ Py.split (Py.join " " ["D1"; "emulator-5554"]) = ["D1"; "emulator-5554"].
Proof.
  assert (H : Forall (fun x => Py.is_token x = true) ["D1"; "emulator-5554"]).
  { repeat (apply Forall_cons; split; [reflexivity|]). apply Forall_nil_2. }
  split; [exact H | exact (split_join _ H)].
Defined.

Lemma quote_injective_witness :
  Py.quote "it's" = Py.quote "it's" /\ "it's" = "it's".
Proof.
  split; [reflexivity | exact (quote_injective "it's" "it's" eq_refl)].
Defined.

Lemma no_devices_no_work_witness :
  Py.forall_chars Py.isspace
    (default EmptyString (({[ "devices" := "  " ]} : gmap string string)
                          !! "devices")) = true
  /\ Install.main {[ "devices" := "  " ]} Sample.urlopen_json
       Sample.urlretrieve Sample.shell Sample.gettempdir Sample.path_join
       Sample.no_such_file Sample.quiet Sample.schedule Sample.start
     = (Ok tt, Sample.start).
Proof.
  split; [reflexivity|].
  exact (no_devices_no_work {[ "devices" := "  " ]} Sample.urlopen_json
           Sample.urlretrieve Sample.shell Sample.gettempdir Sample.path_join
           Sample.no_such_file Sample.quiet Sample.schedule Sample.start
           eq_refl).
Defined.

Lemma fetch_failure_is_fatal_witness :
  Install.devices Sample.environ <> []
  /\ Sample.urlopen_down Install.GITHUB_API_URL = Raise Sample.timed_out
  /\ Install.main Sample.environ Sample.urlopen_down Sample.urlretrieve
       Sample.shell Sample.gettempdir Sample.path_join Sample.no_such_file
       Sample.quiet Sample.schedule Sample.start
     = (Ok tt,
        Install.logged Sample.start
          [Install.Fetch Install.GITHUB_API_URL;
           Install.ScriptFailed Sample.timed_out]).
Proof.
  assert (Hne : Install.devices Sample.environ <> []).
  { intros H. vm_compute in H. discriminate H. }
  split; [exact Hne|]. split; [reflexivity|].
  exact (fetch_failure_is_fatal Sample.environ Sample.urlopen_down
           Sample.urlretrieve Sample.shell Sample.gettempdir Sample.path_join
           Sample.no_such_file Sample.quiet Sample.schedule Sample.start
           Sample.timed_out Hne eq_refl).
Defined.

Lemma download_failure_is_fatal_witness :
  Install.devices Sample.environ <> []
  /\ Sample.urlopen_json Install.GITHUB_API_URL = Ok Sample.release
  /\ Install.find_asset (default [] (Install.assets Sample.release))
     = Some ("https://host/lite-v2.apk", "processor-lite-v2.apk")
  /\ Sample.urlretrieve_broken "https://host/lite-v2.apk" Sample.apk_path
     = Raise (Sample.timed_out, Some 512)
  /\ Install.main Sample.environ Sample.urlopen_json
       Sample.urlretrieve_broken Sample.shell Sample.gettempdir
       Sample.path_join Sample.no_such_file Sample.quiet Sample.schedule
       Sample.start
     = (Ok tt,
        {| Install.fs := {[ Sample.apk_path := 512 ]};
           Install.trace :=
             [Install.Fetch Install.GITHUB_API_URL;
              Install.Download "https://host/lite-v2.apk" Sample.apk_path;
              Install.ScriptFailed Sample.timed_out] |}).
Proof.
  assert (Hne : Install.devices Sample.environ <> []).
  { intros H. vm_compute in H. discriminate H. }
  split; [exact Hne|]. do 3 (split; [reflexivity|]).
  exact (download_failure_is_fatal Sample.environ Sample.urlopen_json
           Sample.urlretrieve_broken Sample.shell Sample.gettempdir
           Sample.path_join Sample.no_such_file Sample.quiet Sample.schedule
           Sample.start Sample.release "https://host/lite-v2.apk"
           "processor-lite-v2.apk" Sample.timed_out (Some 512)
           Hne eq_refl eq_refl eq_refl).
Defined.

Lemma steps_in_order_witness :
  SetupSsh.DEVICES Sample.environ = "D1" :: ["D2"; "D3"]
  /\ exists path evs,
       SetupSsh.log unit
         (SetupSsh.main unit Sample.spawn_no_push Sample.mktemp Sample.environ
            (SetupSsh.PyStr "secret") Sample.boot).2
       = SetupSsh.log unit Sample.boot ++ evs
       /\ evs `prefix_of` SetupSsh.flow Sample.environ "D1" path "secret".
Proof.
  split; [reflexivity|].
  exact (steps_in_order Sample.spawn_no_push Sample.mktemp Sample.environ
           "secret" Sample.boot "D1" ["D2"; "D3"] eq_refl).
Defined.

Lemma success_ran_every_step_witness :
  exists st',
    SetupSsh.main unit Sample.spawn_termux Sample.mktemp Sample.environ
      (SetupSsh.PyStr "secret") Sample.boot = (Ok 0%Z, st')
    /\ exists device_id rest path,
         SetupSsh.DEVICES Sample.environ = device_id :: rest
         /\ SetupSsh.log unit st'
            = SetupSsh.log unit Sample.boot
              ++ SetupSsh.flow Sample.environ device_id path "secret".
Proof.
  eexists. split.
  - vm_compute. reflexivity.
  - refine (success_ran_every_step Sample.spawn_termux Sample.mktemp
              Sample.environ "secret" Sample.boot _ _).
    vm_compute. reflexivity.
Defined.

Lemma only_push_and_chmod_raise_witness :
  exists st',
    SetupSsh.main unit Sample.spawn_no_push Sample.mktemp Sample.environ
      (SetupSsh.PyStr "secret") Sample.boot
    = (Raise (SetupSsh.CalledProcessError 1 Sample.push_args), st')
    /\ 1%Z <> 0%Z
    /\ exists device_id rest,
         SetupSsh.DEVICES Sample.environ = device_id :: rest
         /\ ((exists path,
                Sample.push_args
                = [SetupSsh.ADB Sample.environ; "-s"; device_id; "push"; path;
                   SetupSsh.device_script_path])
             \/ Sample.push_args
                = [SetupSsh.ADB Sample.environ; "-s"; device_id; "shell";
                   "chmod"; "755"; SetupSsh.device_script_path]).
Proof.
  eexists. split.
  - vm_compute. reflexivity.
  - refine (only_push_and_chmod_raise Sample.spawn_no_push Sample.mktemp
              Sample.environ (SetupSsh.PyStr "secret") Sample.boot _ 1%Z
              Sample.push_args _).
    vm_compute. reflexivity.
Defined.
